(** * Telemetry orchestration core: store, cache, presence and rate limiting

    A shallow embedding of the telemetry path of the IoT backend:
    [services/redis_cache.py] (RedisCacheService),
    [services/cassandra_telemetry.py] (CassandraTelemetryService),
    [services/mongodb_service.py] (log_event) and
    [routes/telemetry_postgres.py] (store_telemetry and
    get_device_latest_telemetry), followed by the properties of the
    specification that concern them.

    Python code that talks to a backing store is embedded in a state and
    exception monad over one [world] record; a [try: ... except Exception]
    block is the combinator [try_except].  Time is an exact number of seconds
    ([Z]); the rounding of IEEE doubles is not modelled. *)

From Stdlib Require Import ZArith Lia Bool Ascii String List.
From Stdlib Require Import DecimalString DecimalZ DecimalPos.
From stdpp Require Import gmap strings list fin_maps sorting.

Set Warnings "-register-all".

Local Open Scope string_scope.
Local Open Scope Z_scope.

(** ** Python runtime: exceptions, text and integers *)

Module Py.

(** The exception classes that the modelled code can meet. *)
Inductive exn : Type :=
  | ValueError | TypeError | AttributeError | KeyError | OverflowError
  | RedisError | DataError | ResponseError
  | DriverError | PyMongoError | SQLAlchemyError.

#[export] Instance exn_eq_dec : EqDecision exn.
Proof. solve_decision. Defined.

Inductive outcome (A : Type) : Type :=
  | Ret (a : A)
  | Raise (e : exn).
Arguments Ret {A} a.
Arguments Raise {A} e.

(** [str.isspace] on the ASCII range. *)
Definition is_space (c : ascii) : bool :=
  let n := nat_of_ascii c in
  ((9 <=? n)%nat && (n <=? 13)%nat) || ((28 <=? n)%nat && (n <=? 32)%nat).

Definition is_digit (c : ascii) : bool :=
  let n := nat_of_ascii c in (48 <=? n)%nat && (n <=? 57)%nat.

Fixpoint all_digits (s : string) : bool :=
  match s with
  | EmptyString => true
  | String c r => is_digit c && all_digits r
  end.

Fixpoint lstrip (s : string) : string :=
  match s with
  | EmptyString => EmptyString
  | String c r => if is_space c then lstrip r else s
  end.

Fixpoint rstrip (s : string) : string :=
  match s with
  | EmptyString => EmptyString
  | String c r =>
      match rstrip r with
      | EmptyString => if is_space c then EmptyString else String c EmptyString
      | r' => String c r'
      end
  end.

Definition strip (s : string) : string := rstrip (lstrip s).

(** Digit groups of an integer literal: digits, single underscores allowed
    between two digits only.  [prev] tells whether the previous character was
    a digit. *)
Fixpoint digit_groups (prev : bool) (s : string) : option string :=
  match s with
  | EmptyString => if prev then Some EmptyString else None
  | String c r =>
      if is_digit c then option_map (String c) (digit_groups true r)
      else if Ascii.eqb c "_" then
        (if prev then
           match r with
           | EmptyString => None
           | String c' _ => if is_digit c' then digit_groups false r else None
           end
         else None)
      else None
  end.

Definition nat_literal (s : string) : option Z :=
  match digit_groups false s with
  | Some ds => option_map Z.of_uint (NilZero.uint_of_string ds)
  | None => None
  end.

Definition signed_literal (s : string) : option Z :=
  match s with
  | EmptyString => None
  | String c r =>
      if Ascii.eqb c "-" then option_map Z.opp (nat_literal r)
      else if Ascii.eqb c "+" then nat_literal r
      else nat_literal (String c r)
  end.

(** [int(s)] for a [str] argument, base 10; [None] stands for ValueError. *)
Definition int_of_str (s : string) : option Z := signed_literal (strip s).

(** [str(n)] for an [int]. *)
Definition str_of_int (z : Z) : string := NilZero.string_of_int (Z.to_int z).

Fixpoint startswith (p s : string) : bool :=
  match p, s with
  | EmptyString, _ => true
  | String a p', String b s' => Ascii.eqb a b && startswith p' s'
  | String _ _, EmptyString => false
  end.

Fixpoint endswith_char (c : ascii) (s : string) : bool :=
  match s with
  | EmptyString => false
  | String a EmptyString => Ascii.eqb a c
  | String _ r => endswith_char c r
  end.

(** [s[:-1]] *)
Fixpoint drop_last (s : string) : string :=
  match s with
  | EmptyString => EmptyString
  | String _ EmptyString => EmptyString
  | String a r => String a (drop_last r)
  end.

(** [s.replace(c, t)] for a one-character pattern. *)
Fixpoint replace_char (c : ascii) (t : string) (s : string) : string :=
  match s with
  | EmptyString => EmptyString
  | String a r =>
      if Ascii.eqb a c then t +:+ replace_char c t r
      else String a (replace_char c t r)
  end.

End Py.

Import Py.

(** The part of the Python library that is taken as given: the [float] type
    with its conversions, [json] and [datetime.fromisoformat]. *)
Inductive pyval (F : Type) : Type :=
  | PNone
  | PBool (b : bool)
  | PInt (z : Z)
  | PFloat (x : F)
  | PStr (s : string)
  | PList (l : list (pyval F))
  | PDict (d : gmap string (pyval F)).
Arguments PNone {F}.
Arguments PBool {F} b.
Arguments PInt {F} z.
Arguments PFloat {F} x.
Arguments PStr {F} s.
Arguments PList {F} l.
Arguments PDict {F} d.

Class PyRuntime : Type := {
  float : Type;
  (** [float(n)] for an [int]; [None] is OverflowError. *)
  float_of_int : Z -> option float;
  (** [repr(x)], the text redis-py sends for a [float]. *)
  float_repr : float -> string;
  (** [float(s)] for a [str]; [None] is ValueError. *)
  float_of_str : string -> option float;
  (** [bool(x)] for a [float]. *)
  float_truth : float -> bool;
  (** [int(x)] for a [float]; [None] is the error raised on inf and nan. *)
  int_of_float : float -> option Z;
  float_of_repr : forall x, float_of_str (float_repr x) = Some x;
  float_of_int_str : forall z x,
    float_of_int z = Some x -> float_of_str (str_of_int z) = Some x;
  (** [json.dumps]; [None] is TypeError. *)
  json_dumps : pyval float -> option string;
  (** [json.loads]; [None] is JSONDecodeError, a ValueError. *)
  json_loads : string -> option (pyval float);
  (** [datetime.fromisoformat] with the instant in seconds; [None] is
      ValueError. *)
  fromisoformat : string -> option Z;
  (** [datetime.isoformat] *)
  isoformat : Z -> string
}.

(** ** The backing stores and the world *)

Module Store.
Section Store.
Context `{PyRuntime}.

(** *** Redis server *)

Inductive rvalue : Type :=
  | RStr (s : string)
  | RHash (h : gmap string string)
  | RList (l : list string)
  | RZSet (z : gmap string Z).

Record entry : Type := { value : rvalue; deadline : option Z }.

Record server : Type := {
  keyspace : gmap string entry;
  published : list (string * string)
}.

Definition live (now : Z) (e : entry) : bool :=
  match deadline e with
  | None => true
  | Some d => now <? d
  end.

(** A key whose deadline has passed is absent for every command. *)
Definition find (now : Z) (k : string) (srv : server) : option entry :=
  match keyspace srv !! k with
  | Some e => if live now e then Some e else None
  | None => None
  end.

Definition store (k : string) (e : entry) (srv : server) : server :=
  {| keyspace := <[k := e]> (keyspace srv); published := published srv |}.

Definition remove (k : string) (srv : server) : server :=
  {| keyspace := delete k (keyspace srv); published := published srv |}.

Definition reply (A : Type) : Type := (outcome A * server)%type.

Definition GET (now : Z) (k : string) (srv : server) : reply (option string) :=
  match find now k srv with
  | None => (Ret None, srv)
  | Some {| value := RStr s |} => (Ret (Some s), srv)
  | Some _ => (Raise ResponseError, srv)
  end.

Definition SET (k v : string) (srv : server) : reply bool :=
  (Ret true, store k {| value := RStr v; deadline := None |} srv).

(** The server keeps a deadline as a signed 64-bit number of milliseconds.
    A time to live in seconds is refused when its conversion to milliseconds,
    or the addition of the current time, leaves that range. *)
Definition expire_time_ok (now ttl : Z) : bool :=
  (Z.quot (- 2 ^ 63) 1000 <=? ttl) && (ttl <=? Z.quot (2 ^ 63 - 1) 1000)
  && (ttl * 1000 <=? 2 ^ 63 - 1 - now * 1000).

(** SETEX refuses a time to live that is not positive, and one whose
    deadline the server cannot hold. *)
Definition SETEX (now : Z) (k : string) (ttl : Z) (v : string) (srv : server)
  : reply bool :=
  if (ttl <=? 0) || negb (expire_time_ok now ttl) then (Raise ResponseError, srv)
  else (Ret true, store k {| value := RStr v; deadline := Some (now + ttl) |} srv).

Definition DEL (now : Z) (ks : list string) (srv : server) : reply Z :=
  (Ret (Z.of_nat (length (filter (fun k => is_Some (find now k srv)) ks))),
   foldr remove srv ks).

(** The stored text must be a canonical 64-bit integer. *)
Definition int64_of (s : string) : option Z :=
  match option_map Z.of_int (NilZero.int_of_string s) with
  | Some z =>
      if String.eqb (str_of_int z) s && (- 2 ^ 63 <=? z) && (z <? 2 ^ 63)
      then Some z else None
  | None => None
  end.

Definition INCR (now : Z) (k : string) (srv : server) : reply Z :=
  match find now k srv with
  | None => (Ret 1, store k {| value := RStr "1"; deadline := None |} srv)
  | Some {| value := RStr s; deadline := d |} =>
      match int64_of s with
      | Some z =>
          if z + 1 <? 2 ^ 63
          then (Ret (z + 1),
                store k {| value := RStr (str_of_int (z + 1)); deadline := d |} srv)
          else (Raise ResponseError, srv)
      | None => (Raise ResponseError, srv)
      end
  | Some _ => (Raise ResponseError, srv)
  end.

(** EXPIRE checks the time to live before it looks for the key; a time to
    live that is not positive deletes the key. *)
Definition EXPIRE (now : Z) (k : string) (ttl : Z) (srv : server) : reply bool :=
  if negb (expire_time_ok now ttl) then (Raise ResponseError, srv)
  else
    match find now k srv with
    | None => (Ret false, srv)
    | Some e =>
        if ttl <=? 0 then (Ret true, remove k srv)
        else (Ret true, store k {| value := value e; deadline := Some (now + ttl) |} srv)
    end.

Definition TTL (now : Z) (k : string) (srv : server) : reply Z :=
  match find now k srv with
  | None => (Ret (-2), srv)
  | Some {| deadline := None |} => (Ret (-1), srv)
  | Some {| deadline := Some d |} => (Ret (d - now), srv)
  end.

Definition PERSIST (now : Z) (k : string) (srv : server) : reply bool :=
  match find now k srv with
  | Some {| value := v; deadline := Some _ |} =>
      (Ret true, store k {| value := v; deadline := None |} srv)
  | _ => (Ret false, srv)
  end.

(** HSET merges the given fields into the hash and keeps its deadline. *)
Definition HSET (now : Z) (k : string) (fields : gmap string string)
  (srv : server) : reply Z :=
  match find now k srv with
  | None =>
      (Ret (Z.of_nat (size fields)),
       store k {| value := RHash fields; deadline := None |} srv)
  | Some {| value := RHash h; deadline := d |} =>
      (Ret (Z.of_nat (size (filter (fun kv => h !! kv.1 = None) fields))),
       store k {| value := RHash (fields ∪ h); deadline := d |} srv)
  | Some _ => (Raise ResponseError, srv)
  end.

Definition HGETALL (now : Z) (k : string) (srv : server)
  : reply (gmap string string) :=
  match find now k srv with
  | None => (Ret ∅, srv)
  | Some {| value := RHash h |} => (Ret h, srv)
  | Some _ => (Raise ResponseError, srv)
  end.

Definition HGET (now : Z) (k f : string) (srv : server) : reply (option string) :=
  match find now k srv with
  | None => (Ret None, srv)
  | Some {| value := RHash h |} => (Ret (h !! f), srv)
  | Some _ => (Raise ResponseError, srv)
  end.

Definition ZADD (now : Z) (k : string) (members : gmap string Z) (srv : server)
  : reply Z :=
  match find now k srv with
  | None =>
      (Ret (Z.of_nat (size members)),
       store k {| value := RZSet members; deadline := None |} srv)
  | Some {| value := RZSet z; deadline := d |} =>
      (Ret (Z.of_nat (size (filter (fun kv => z !! kv.1 = None) members))),
       store k {| value := RZSet (members ∪ z); deadline := d |} srv)
  | Some _ => (Raise ResponseError, srv)
  end.

Definition ZREM (now : Z) (k m : string) (srv : server) : reply Z :=
  match find now k srv with
  | None => (Ret 0, srv)
  | Some {| value := RZSet z; deadline := d |} =>
      match z !! m with
      | None => (Ret 0, srv)
      | Some _ =>
          if decide (delete m z = ∅) then (Ret 1, remove k srv)
          else (Ret 1, store k {| value := RZSet (delete m z); deadline := d |} srv)
      end
  | Some _ => (Raise ResponseError, srv)
  end.

Definition ZSCORE (now : Z) (k m : string) (srv : server) : reply (option Z) :=
  match find now k srv with
  | None => (Ret None, srv)
  | Some {| value := RZSet z |} => (Ret (z !! m), srv)
  | Some _ => (Raise ResponseError, srv)
  end.

(** Members are ordered by score, ties by member. *)
Definition zorder (a b : string * Z) : Prop :=
  Is_true ((a.2 <? b.2) || ((a.2 =? b.2) && String.leb a.1 b.1)).

Definition ZRANGEBYSCORE (now : Z) (k : string) (lo hi : Z) (srv : server)
  : reply (list string) :=
  match find now k srv with
  | None => (Ret [], srv)
  | Some {| value := RZSet z |} =>
      (Ret (fst <$> merge_sort zorder
              (filter (fun kv => lo <= kv.2 <= hi) (map_to_list z))), srv)
  | Some _ => (Raise ResponseError, srv)
  end.

Definition RPUSH (now : Z) (k v : string) (srv : server) : reply Z :=
  match find now k srv with
  | None => (Ret 1, store k {| value := RList [v]; deadline := None |} srv)
  | Some {| value := RList l; deadline := d |} =>
      (Ret (Z.of_nat (length l) + 1),
       store k {| value := RList (l ++ [v]); deadline := d |} srv)
  | Some _ => (Raise ResponseError, srv)
  end.

(** LRANGE key 0 -1 *)
Definition LRANGE_all (now : Z) (k : string) (srv : server) : reply (list string) :=
  match find now k srv with
  | None => (Ret [], srv)
  | Some {| value := RList l |} => (Ret l, srv)
  | Some _ => (Raise ResponseError, srv)
  end.

(** No subscriber is modelled: the message is recorded and reaches nobody. *)
Definition PUBLISH (channel msg : string) (srv : server) : reply Z :=
  (Ret 0, {| keyspace := keyspace srv; published := published srv ++ [(channel, msg)] |}).

Definition PING (srv : server) : reply bool := (Ret true, srv).

Definition FLUSHDB (srv : server) : reply bool :=
  (Ret true, {| keyspace := ∅; published := published srv |}).

(** The connection object of redis-py.  [connected = false] is
    [self.client = None] after a failed [_connect]; [faults] is the schedule of
    transport failures, one flag per command sent, and a command that meets a
    fault is not executed. *)
Record redis_client : Type := {
  connected : bool;
  faults : list bool;
  srv : server
}.

(** *** Cassandra session *)

Record cassandra : Type := {
  session : bool;
  cass_faults : list bool;
  (** PRIMARY KEY ((device_id), timestamp, measurement_name) *)
  device_data : gmap (Z * Z * string) (float * gmap string string);
  (** PRIMARY KEY (device_id, measurement_name) *)
  latest_data : gmap (Z * string) (Z * float);
  (** PRIMARY KEY ((user_id), timestamp, device_id, measurement_name) *)
  user_data : gmap (Z * Z * Z * string) float
}.

(** *** MongoDB event log *)

Record event : Type := {
  event_type : string;
  event_device_id : Z;
  event_user_id : Z;
  event_timestamp : option Z;
  event_measurements : list string;
  event_count : Z
}.

Record mongodb : Type := {
  mongo_faults : list bool;
  event_logs : list event
}.

(** *** Relational device table *)

(** Modelled from the spec: the [Device] model of [src.models] is not among
    the sources; a device identity is the record of section 3. *)
Record Device : Type := {
  id : Z;
  user_id : Z;
  name : string;
  device_type : string;
  api_key : string;
  status : string;
  last_seen : option Z
}.

Record postgres : Type := {
  pg_faults : list bool;
  devices : list Device
}.

(** *** The world and the monad of effects *)

Record world : Type := {
  clock : Z;
  redis : redis_client;
  cass : cassandra;
  mongo : mongodb;
  pg : postgres
}.

Definition M (A : Type) : Type := world -> outcome A * world.

Definition ret {A} (a : A) : M A := fun w => (Ret a, w).

Definition raise {A} (e : exn) : M A := fun w => (Raise e, w).

Definition bind {A B} (m : M A) (k : A -> M B) : M B :=
  fun w =>
    match m w with
    | (Ret a, w') => k a w'
    | (Raise e, w') => (Raise e, w')
    end.

(** [try: body  except Exception: handler] *)
Definition try_except {A} (body : M A) (handler : exn -> M A) : M A :=
  fun w =>
    match body w with
    | (Ret a, w') => (Ret a, w')
    | (Raise e, w') => handler e w'
    end.

(** [try: body  except cls: handler], for one exception class. *)
Definition try_except_only {A} (cls : exn) (body : M A) (handler : M A) : M A :=
  fun w =>
    match body w with
    | (Ret a, w') => (Ret a, w')
    | (Raise e, w') =>
        if decide (e = cls) then handler w' else (Raise e, w')
    end.

(** A Python expression that may raise. *)
Definition of_option {A} (e : exn) (o : option A) : M A :=
  match o with
  | Some a => ret a
  | None => raise e
  end.

(** [time.time()] and [datetime.now(timezone.utc)] *)
Definition time_time : M Z := fun w => (Ret (clock w), w).

Definition set_redis (r : redis_client) (w : world) : world :=
  {| clock := clock w; redis := r; cass := cass w; mongo := mongo w; pg := pg w |}.

Definition set_cass (c : cassandra) (w : world) : world :=
  {| clock := clock w; redis := redis w; cass := c; mongo := mongo w; pg := pg w |}.

Definition set_mongo (m : mongodb) (w : world) : world :=
  {| clock := clock w; redis := redis w; cass := cass w; mongo := m; pg := pg w |}.

Definition set_pg (p : postgres) (w : world) : world :=
  {| clock := clock w; redis := redis w; cass := cass w; mongo := mongo w; pg := p |}.

(** Time passing between two requests. *)
Definition sleep (d : Z) (w : world) : world :=
  {| clock := clock w + d; redis := redis w; cass := cass w; mongo := mongo w;
     pg := pg w |}.

(** One command sent through [self.client]: AttributeError without a client,
    a transport error when the schedule says so, the server's answer
    otherwise. *)
Definition client_call {A} (cmd : Z -> server -> reply A) : M A :=
  fun w =>
    let r := redis w in
    if connected r then
      match faults r with
      | true :: fs =>
          (Raise RedisError,
           set_redis {| connected := true; faults := fs; srv := srv r |} w)
      | fs =>
          let '(o, s') := cmd (clock w) (srv r) in
          (o, set_redis {| connected := true; faults := tail fs; srv := s' |} w)
      end
    else (Raise AttributeError, w).

(** One statement sent through [self.session.execute]. *)
Definition session_execute {A} (stmt : cassandra -> A * cassandra) : M A :=
  fun w =>
    let c := cass w in
    if session c then
      match cass_faults c with
      | true :: fs =>
          (Raise DriverError,
           set_cass {| session := true; cass_faults := fs;
                       device_data := device_data c;
                       latest_data := latest_data c;
                       user_data := user_data c |} w)
      | fs =>
          let '(a, c') := stmt c in
          (Ret a,
           set_cass {| session := true; cass_faults := tail fs;
                       device_data := device_data c';
                       latest_data := latest_data c';
                       user_data := user_data c' |} w)
      end
    else (Raise AttributeError, w).

End Store.
End Store.

Import Store.

Declare Scope py_scope.
Delimit Scope py_scope with py.
Notation "x <- m ;; k" := (bind m (fun x => k))
  (at level 100, m at next level, right associativity) : py_scope.
Notation "m ;;; k" := (bind m (fun _ => k))
  (at level 100, right associativity) : py_scope.

Local Open Scope py_scope.

(** ** services/redis_cache.py *)

Module RedisCacheService.
Section RedisCacheService.
Context `{PyRuntime}.

(** What redis-py accepts as a value: [str], [int] and [float]; anything
    else, [bool] included, is refused with DataError before a byte is sent. *)
Definition encode_value (v : pyval float) : option string :=
  match v with
  | PInt z => Some (str_of_int z)
  | PFloat x => Some (float_repr x)
  | PStr s => Some s
  | _ => None
  end.

Definition encode_mapping (m : gmap string (pyval float))
  : option (gmap string string) :=
  if decide (m = ∅) then None
  else if decide (map_Forall (fun _ v => is_Some (encode_value v)) m)
       then Some (omap encode_value m)
       else None.

(** [{k: float(v) for k, v in data.items()}] *)
Definition floats_of (data : gmap string string) : option (gmap string float) :=
  if decide (map_Forall (fun _ v => is_Some (float_of_str v)) data)
  then Some (omap float_of_str data)
  else None.

(** Truth value of a [str]. *)
Definition nonempty (s : string) : bool :=
  match s with EmptyString => false | _ => true end.

Definition _connect : M unit :=
  fun w =>
    let r := redis w in
    match faults r with
    | true :: fs =>
        (Ret tt, set_redis {| connected := false; faults := fs; srv := srv r |} w)
    | fs =>
        (Ret tt, set_redis {| connected := true; faults := tail fs; srv := srv r |} w)
    end.

Definition is_available : M bool :=
  fun w =>
    if connected (redis w)
    then try_except (client_call (fun _ => PING)) (fun _ => ret false) w
    else (Ret false, w).

Definition ping : M bool :=
  try_except (client_call (fun _ => PING)) (fun _ => ret false).

(** *** Device caching *)

Definition cache_device (device_id : Z) (device_data : pyval float) (ttl : Z)
  : M bool :=
  try_except
    (let key := "device:" +:+ str_of_int device_id in
     js <- of_option TypeError (json_dumps device_data) ;;
     client_call (fun now => SETEX now key ttl js) ;;;
     ret true)
    (fun _ => ret false).

Definition loads_if_present (data : option string) : M (option (pyval float)) :=
  match data with
  | Some s =>
      if nonempty s then (v <- of_option ValueError (json_loads s) ;; ret (Some v))
      else ret None
  | None => ret None
  end.

Definition get_device (device_id : Z) : M (option (pyval float)) :=
  try_except
    (let key := "device:" +:+ str_of_int device_id in
     data <- client_call (fun now => GET now key) ;;
     loads_if_present data)
    (fun _ => ret None).

Definition delete_device (device_id : Z) : M bool :=
  try_except
    (let key := "device:" +:+ str_of_int device_id in
     client_call (fun now => DEL now [key]) ;;;
     ret true)
    (fun _ => ret false).

(** *** API key caching *)

Definition cache_api_key (api_key : string) (device_data : pyval float) (ttl : Z)
  : M bool :=
  try_except
    (let key := "apikey:" +:+ api_key in
     js <- of_option TypeError (json_dumps device_data) ;;
     client_call (fun now => SETEX now key ttl js) ;;;
     ret true)
    (fun _ => ret false).

Definition get_device_by_api_key (api_key : string) : M (option (pyval float)) :=
  try_except
    (let key := "apikey:" +:+ api_key in
     data <- client_call (fun now => GET now key) ;;
     loads_if_present data)
    (fun _ => ret None).

Definition invalidate_api_key (api_key : string) : M bool :=
  try_except
    (let key := "apikey:" +:+ api_key in
     client_call (fun now => DEL now [key]) ;;;
     ret true)
    (fun _ => ret false).

(** *** Device status *)

Definition update_last_seen (device_id : Z) : M bool :=
  try_except
    (let key := "device:lastseen:" +:+ str_of_int device_id in
     now <- time_time ;;
     client_call (fun _ => SET key (isoformat now)) ;;;
     ret true)
    (fun _ => ret false).

Definition set_device_online (device_id : Z) : M bool :=
  try_except
    (timestamp <- time_time ;;
     client_call (fun now =>
       ZADD now "devices:online" {[ str_of_int device_id := timestamp ]}) ;;;
     update_last_seen device_id ;;;
     ret true)
    (fun _ => ret false).

Definition set_device_offline (device_id : Z) : M bool :=
  try_except
    (client_call (fun now => ZREM now "devices:online" (str_of_int device_id)) ;;;
     ret true)
    (fun _ => ret false).

(** [if not score] is taken by an absent member and by the score 0. *)
Definition is_device_online (device_id : Z) : M bool :=
  try_except
    (score <- client_call (fun now =>
        ZSCORE now "devices:online" (str_of_int device_id)) ;;
     match score with
     | None => ret false
     | Some sc =>
         if sc =? 0 then ret false
         else (now <- time_time ;; ret (now - sc <? 300))
     end)
    (fun _ => ret false).

Definition get_online_devices : M (list Z) :=
  try_except
    (now <- time_time ;;
     let cutoff := now - 300 in
     devices <- client_call (fun t => ZRANGEBYSCORE t "devices:online" cutoff now) ;;
     of_option ValueError (mapM int_of_str devices))
    (fun _ => ret []).

Definition get_last_seen (device_id : Z) : M (option string) :=
  try_except
    (let key := "device:lastseen:" +:+ str_of_int device_id in
     client_call (fun now => GET now key))
    (fun _ => ret None).

(** *** Latest telemetry *)

Definition cache_latest_telemetry (device_id : Z)
  (telemetry : gmap string (pyval float)) (ttl : Z) : M bool :=
  try_except
    (let key := "telemetry:latest:" +:+ str_of_int device_id in
     fields <- of_option DataError (encode_mapping telemetry) ;;
     client_call (fun now => HSET now key fields) ;;;
     client_call (fun now => EXPIRE now key ttl) ;;;
     ret true)
    (fun _ => ret false).

Definition get_latest_telemetry (device_id : Z) : M (option (gmap string float)) :=
  try_except
    (let key := "telemetry:latest:" +:+ str_of_int device_id in
     data <- client_call (fun now => HGETALL now key) ;;
     if decide (data = ∅) then ret None
     else (m <- of_option ValueError (floats_of data) ;; ret (Some m)))
    (fun _ => ret None).

Definition update_measurement (device_id : Z) (measurement_name : string)
  (v : float) : M bool :=
  try_except
    (let key := "telemetry:latest:" +:+ str_of_int device_id in
     client_call (fun now => HSET now key {[ measurement_name := float_repr v ]}) ;;;
     ret true)
    (fun _ => ret false).

Definition get_measurement (device_id : Z) (measurement_name : string)
  : M (option float) :=
  try_except
    (let key := "telemetry:latest:" +:+ str_of_int device_id in
     v <- client_call (fun now => HGET now key measurement_name) ;;
     match v with
     | Some s =>
         if nonempty s then (x <- of_option ValueError (float_of_str s) ;; ret (Some x))
         else ret None
     | None => ret None
     end)
    (fun _ => ret None).

(** *** Rate limiting *)

Definition check_rate_limit (key : string) (max_requests window : Z) : M bool :=
  try_except
    (let rate_key := "ratelimit:" +:+ key in
     current <- client_call (fun now => GET now rate_key) ;;
     match current with
     | None =>
         (* First request in window *)
         client_call (fun now => SETEX now rate_key window (str_of_int 1)) ;;;
         ret true
     | Some cur =>
         count <- of_option ValueError (int_of_str cur) ;;
         if max_requests <=? count then ret false
         else
           (* Increment counter *)
           (client_call (fun now => INCR now rate_key) ;;;
            ret true)
     end)
    (fun _ => ret true).

Definition get_rate_limit_remaining (key : string) (max_requests : Z) : M Z :=
  try_except
    (let rate_key := "ratelimit:" +:+ key in
     current <- client_call (fun now => GET now rate_key) ;;
     match current with
     | None => ret max_requests
     | Some cur =>
         count <- of_option ValueError (int_of_str cur) ;;
         ret (Z.max 0 (max_requests - count))
     end)
    (fun _ => ret max_requests).

(** *** Session management *)

Definition cache_session (user_id : Z) (session_data : pyval float) (ttl : Z)
  : M bool :=
  try_except
    (let key := "session:" +:+ str_of_int user_id in
     js <- of_option TypeError (json_dumps session_data) ;;
     client_call (fun now => SETEX now key ttl js) ;;;
     ret true)
    (fun _ => ret false).

Definition get_session (user_id : Z) : M (option (pyval float)) :=
  try_except
    (let key := "session:" +:+ str_of_int user_id in
     data <- client_call (fun now => GET now key) ;;
     loads_if_present data)
    (fun _ => ret None).

Definition delete_session (user_id : Z) : M bool :=
  try_except
    (let key := "session:" +:+ str_of_int user_id in
     client_call (fun now => DEL now [key]) ;;;
     ret true)
    (fun _ => ret false).

(** *** Alerts *)

Definition add_alert (device_id : Z) (alert : pyval float) (ttl : Z) : M bool :=
  try_except
    (let key := "alerts:" +:+ str_of_int device_id in
     js <- of_option TypeError (json_dumps alert) ;;
     client_call (fun now => RPUSH now key js) ;;;
     client_call (fun now => EXPIRE now key ttl) ;;;
     ret true)
    (fun _ => ret false).

Definition get_alerts (device_id : Z) : M (list (pyval float)) :=
  try_except
    (let key := "alerts:" +:+ str_of_int device_id in
     alerts <- client_call (fun now => LRANGE_all now key) ;;
     of_option ValueError (mapM json_loads alerts))
    (fun _ => ret []).

Definition clear_alerts (device_id : Z) : M bool :=
  try_except
    (let key := "alerts:" +:+ str_of_int device_id in
     client_call (fun now => DEL now [key]) ;;;
     ret true)
    (fun _ => ret false).

(** *** Pub/Sub *)

Definition publish_telemetry (device_id : Z) (data : pyval float) : M Z :=
  try_except
    (let channel := "device:" +:+ str_of_int device_id +:+ ":telemetry" in
     js <- of_option TypeError (json_dumps data) ;;
     client_call (fun _ => PUBLISH channel js))
    (fun _ => ret 0).

Definition publish_device_status (device_id : Z) (status : string) : M Z :=
  try_except
    (let channel := "device:" +:+ str_of_int device_id +:+ ":status" in
     client_call (fun _ => PUBLISH channel status))
    (fun _ => ret 0).

Definition publish_alert (device_id : Z) (alert : pyval float) : M Z :=
  try_except
    (let channel := "device:" +:+ str_of_int device_id +:+ ":alert" in
     js <- of_option TypeError (json_dumps alert) ;;
     client_call (fun _ => PUBLISH channel js))
    (fun _ => ret 0).

(** The subscription object is identified with the channel it listens on. *)
Definition subscribe_to_device (device_id : Z) : M (option string) :=
  try_except
    (let channel := "device:" +:+ str_of_int device_id +:+ ":telemetry" in
     client_call (fun _ s => (Ret (Some channel), s)))
    (fun _ => ret None).

(** *** Statistics *)

Definition increment (key : string) : M Z :=
  try_except (client_call (fun now => INCR now key)) (fun _ => ret 0).

Definition get_counter (key : string) : M Z :=
  try_except
    (v <- client_call (fun now => GET now key) ;;
     match v with
     | Some s => if nonempty s then of_option ValueError (int_of_str s) else ret 0
     | None => ret 0
     end)
    (fun _ => ret 0).

Definition set_gauge (key : string) (v : Z) : M bool :=
  try_except
    (client_call (fun _ => SET key (str_of_int v)) ;;;
     ret true)
    (fun _ => ret false).

Definition get_gauge (key : string) : M (option Z) :=
  try_except
    (v <- client_call (fun now => GET now key) ;;
     match v with
     | Some s =>
         if nonempty s then (z <- of_option ValueError (int_of_str s) ;; ret (Some z))
         else ret None
     | None => ret None
     end)
    (fun _ => ret None).

(** *** Bulk operations *)

(** The pipeline buffers one SET per device and sends them in one round
    trip; a device that does not serialise raises before anything is sent. *)
Definition bulk_cache_devices (devices : gmap Z (pyval float)) : M bool :=
  try_except
    (cmds <- of_option TypeError
        (mapM (fun kv : Z * pyval float =>
                 js ← json_dumps kv.2;
                 Some ("device:" +:+ str_of_int kv.1, js))
              (map_to_list devices)) ;;
     client_call (fun _ s =>
       (Ret tt,
        foldl (fun s' (kv : string * string) =>
                 Store.store kv.1 {| value := RStr kv.2; deadline := None |} s')
              s cmds)) ;;;
     ret true)
    (fun _ => ret false).

Definition bulk_delete (keys : list string) : M bool :=
  try_except
    (match keys with
     | [] => ret true
     | _ => client_call (fun now => DEL now keys) ;;; ret true
     end)
    (fun _ => ret false).

(** *** Cache invalidation *)

Definition invalidate_device_cache (device_id : Z) : M bool :=
  try_except
    (let keys := [ "device:" +:+ str_of_int device_id;
                   "telemetry:latest:" +:+ str_of_int device_id;
                   "device:lastseen:" +:+ str_of_int device_id;
                   "alerts:" +:+ str_of_int device_id ] in
     client_call (fun now => DEL now keys) ;;;
     client_call (fun now => ZREM now "devices:online" (str_of_int device_id)) ;;;
     ret true)
    (fun _ => ret false).

Definition invalidate_user_cache (user_id : Z) : M bool :=
  try_except
    (let key := "session:" +:+ str_of_int user_id in
     client_call (fun now => DEL now [key]) ;;;
     ret true)
    (fun _ => ret false).

(** *** TTL management *)

Definition set_ttl (key : string) (ttl : Z) : M bool :=
  try_except (client_call (fun now => EXPIRE now key ttl)) (fun _ => ret false).

Definition get_ttl (key : string) : M Z :=
  try_except (client_call (fun now => TTL now key)) (fun _ => ret (-1)).

Definition persist (key : string) : M bool :=
  try_except (client_call (fun now => PERSIST now key)) (fun _ => ret false).

(** *** Error handling and test utilities *)

Definition handle_connection_error : M unit := _connect.

Definition flush_test_data : M unit :=
  try_except (client_call (fun _ => FLUSHDB) ;;; ret tt) (fun _ => ret tt).

(** *** A caller: a burst of requests under one rate-limit key *)



(** *** The operations of the cache layer, as one family *)

Inductive operation : Type -> Type :=
  | op_is_available : operation bool
  | op_ping : operation bool
  | op_cache_device (device_id : Z) (d : pyval float) (ttl : Z) : operation bool
  | op_get_device (device_id : Z) : operation (option (pyval float))
  | op_delete_device (device_id : Z) : operation bool
  | op_cache_api_key (k : string) (d : pyval float) (ttl : Z) : operation bool
  | op_get_device_by_api_key (k : string) : operation (option (pyval float))
  | op_invalidate_api_key (k : string) : operation bool
  | op_set_device_online (device_id : Z) : operation bool
  | op_set_device_offline (device_id : Z) : operation bool
  | op_is_device_online (device_id : Z) : operation bool
  | op_get_online_devices : operation (list Z)
  | op_update_last_seen (device_id : Z) : operation bool
  | op_get_last_seen (device_id : Z) : operation (option string)
  | op_cache_latest_telemetry (device_id : Z) (t : gmap string (pyval float))
      (ttl : Z) : operation bool
  | op_get_latest_telemetry (device_id : Z) : operation (option (gmap string float))
  | op_update_measurement (device_id : Z) (m : string) (v : float) : operation bool
  | op_get_measurement (device_id : Z) (m : string) : operation (option float)
  | op_check_rate_limit (k : string) (max_requests window : Z) : operation bool
  | op_get_rate_limit_remaining (k : string) (max_requests : Z) : operation Z
  | op_cache_session (user_id : Z) (d : pyval float) (ttl : Z) : operation bool
  | op_get_session (user_id : Z) : operation (option (pyval float))
  | op_delete_session (user_id : Z) : operation bool
  | op_add_alert (device_id : Z) (a : pyval float) (ttl : Z) : operation bool
  | op_get_alerts (device_id : Z) : operation (list (pyval float))
  | op_clear_alerts (device_id : Z) : operation bool
  | op_publish_telemetry (device_id : Z) (d : pyval float) : operation Z
  | op_publish_device_status (device_id : Z) (st : string) : operation Z
  | op_publish_alert (device_id : Z) (a : pyval float) : operation Z
  | op_subscribe_to_device (device_id : Z) : operation (option string)
  | op_increment (k : string) : operation Z
  | op_get_counter (k : string) : operation Z
  | op_set_gauge (k : string) (v : Z) : operation bool
  | op_get_gauge (k : string) : operation (option Z)
  | op_bulk_cache_devices (ds : gmap Z (pyval float)) : operation bool
  | op_bulk_delete (ks : list string) : operation bool
  | op_invalidate_device_cache (device_id : Z) : operation bool
  | op_invalidate_user_cache (user_id : Z) : operation bool
  | op_set_ttl (k : string) (ttl : Z) : operation bool
  | op_get_ttl (k : string) : operation Z
  | op_persist (k : string) : operation bool
  | op_flush_test_data : operation unit.

Definition perform {A} (o : operation A) : M A :=
  match o with
  | op_is_available => is_available
  | op_ping => ping
  | op_cache_device i d t => cache_device i d t
  | op_get_device i => get_device i
  | op_delete_device i => delete_device i
  | op_cache_api_key k d t => cache_api_key k d t
  | op_get_device_by_api_key k => get_device_by_api_key k
  | op_invalidate_api_key k => invalidate_api_key k
  | op_set_device_online i => set_device_online i
  | op_set_device_offline i => set_device_offline i
  | op_is_device_online i => is_device_online i
  | op_get_online_devices => get_online_devices
  | op_update_last_seen i => update_last_seen i
  | op_get_last_seen i => get_last_seen i
  | op_cache_latest_telemetry i t ttl => cache_latest_telemetry i t ttl
  | op_get_latest_telemetry i => get_latest_telemetry i
  | op_update_measurement i m v => update_measurement i m v
  | op_get_measurement i m => get_measurement i m
  | op_check_rate_limit k n win => check_rate_limit k n win
  | op_get_rate_limit_remaining k n => get_rate_limit_remaining k n
  | op_cache_session u d t => cache_session u d t
  | op_get_session u => get_session u
  | op_delete_session u => delete_session u
  | op_add_alert i a t => add_alert i a t
  | op_get_alerts i => get_alerts i
  | op_clear_alerts i => clear_alerts i
  | op_publish_telemetry i d => publish_telemetry i d
  | op_publish_device_status i st => publish_device_status i st
  | op_publish_alert i a => publish_alert i a
  | op_subscribe_to_device i => subscribe_to_device i
  | op_increment k => increment k
  | op_get_counter k => get_counter k
  | op_set_gauge k v => set_gauge k v
  | op_get_gauge k => get_gauge k
  | op_bulk_cache_devices ds => bulk_cache_devices ds
  | op_bulk_delete ks => bulk_delete ks
  | op_invalidate_device_cache i => invalidate_device_cache i
  | op_invalidate_user_cache u => invalidate_user_cache u
  | op_set_ttl k t => set_ttl k t
  | op_get_ttl k => get_ttl k
  | op_persist k => persist k
  | op_flush_test_data => flush_test_data
  end.

(** What each operation's [except] branch returns.  [bulk_delete] of no key
    sends nothing and answers [True] whatever the state of the connection. *)
Definition fallback {A} (o : operation A) : A :=
  match o in operation T return T with
  | op_is_available | op_ping => false
  | op_cache_device _ _ _ | op_delete_device _ | op_cache_api_key _ _ _
  | op_invalidate_api_key _ | op_set_device_online _ | op_set_device_offline _
  | op_is_device_online _ | op_update_last_seen _
  | op_cache_latest_telemetry _ _ _ | op_update_measurement _ _ _
  | op_cache_session _ _ _ | op_delete_session _ | op_add_alert _ _ _
  | op_clear_alerts _ | op_set_gauge _ _ | op_bulk_cache_devices _
  | op_invalidate_device_cache _ | op_invalidate_user_cache _ | op_set_ttl _ _
  | op_persist _ => false
  | op_bulk_delete ks => match ks with [] => true | _ => false end
  | op_check_rate_limit _ _ _ => true
  | op_get_device _ | op_get_device_by_api_key _ | op_get_session _ => None
  | op_get_last_seen _ | op_subscribe_to_device _ => None
  | op_get_latest_telemetry _ => None
  | op_get_measurement _ _ => None
  | op_get_gauge _ => None
  | op_get_online_devices => []
  | op_get_alerts _ => []
  | op_get_rate_limit_remaining _ n => n
  | op_publish_telemetry _ _ | op_publish_device_status _ _
  | op_publish_alert _ _ | op_increment _ | op_get_counter _ => 0
  | op_get_ttl _ => -1
  | op_flush_test_data => tt
  end.

End RedisCacheService.
End RedisCacheService.

(** ** Python values at work: truth, [dict] access, [int()] *)

Module Value.
Section Value.
Context `{PyRuntime}.

(** [bool(v)], the test of [if v:]. *)
Definition truthy (v : pyval float) : bool :=
  match v with
  | PNone => false
  | PBool b => b
  | PInt z => negb (z =? 0)
  | PFloat x => float_truth x
  | PStr s => RedisCacheService.nonempty s
  | PList l => match l with [] => false | _ => true end
  | PDict d => bool_decide (d ≠ ∅)
  end.

(** [v.get(k, dflt)]: only a [dict] has the method. *)
Definition dict_get (v : pyval float) (k : string) (dflt : pyval float)
  : M (pyval float) :=
  match v with
  | PDict d => ret (default dflt (d !! k))
  | _ => raise AttributeError
  end.

(** [v[k]] *)
Definition subscript (v : pyval float) (k : string) : M (pyval float) :=
  match v with
  | PDict d => of_option KeyError (d !! k)
  | _ => raise TypeError
  end.

(** [v.items()] *)
Definition items (v : pyval float) : M (list (string * pyval float)) :=
  match v with
  | PDict d => ret (map_to_list d)
  | _ => raise AttributeError
  end.

(** [int(v)] *)
Definition int_of (v : pyval float) : M Z :=
  match v with
  | PInt z => ret z
  | PBool b => ret (if b then 1 else 0)
  | PFloat x => of_option OverflowError (int_of_float x)
  | PStr s => of_option ValueError (int_of_str s)
  | _ => raise TypeError
  end.

(** [isinstance(v, (int, float)) and not isinstance(v, bool)] with
    [float(v)]: the value kept for a numeric measurement. *)
Definition is_numeric (v : pyval float) : bool :=
  match v with
  | PInt _ | PFloat _ => true
  | _ => false
  end.

Definition to_float (v : pyval float) : M float :=
  match v with
  | PInt z => of_option OverflowError (float_of_int z)
  | PFloat x => ret x
  | _ => raise TypeError
  end.

(** The value a numeric measurement is stored under; nothing for the other
    values, nor for an integer too large for a [float]. *)
Definition numeric_value (v : pyval float) : option float :=
  match v with
  | PInt z => float_of_int z
  | PFloat x => Some x
  | _ => None
  end.

(** The numeric subset of a measurement map. *)
Definition numeric_subset (m : gmap string (pyval float)) : gmap string float :=
  omap numeric_value m.

Fixpoint for_each {A} (l : list A) (body : A -> M unit) : M unit :=
  match l with
  | [] => ret tt
  | a :: l' => body a ;;; for_each l' body
  end.

End Value.
End Value.

Import Value.

(** ** services/cassandra_telemetry.py *)

Module CassandraTelemetryService.
Section CassandraTelemetryService.
Context `{PyRuntime}.

Definition insert_device_data (device_id timestamp : Z) (measurement_name : string)
  (numeric_value : float) (metadata : gmap string string) : M unit :=
  session_execute (fun c =>
    (tt, {| session := session c; cass_faults := cass_faults c;
            device_data := <[(device_id, timestamp, measurement_name) :=
                               (numeric_value, metadata)]> (device_data c);
            latest_data := latest_data c;
            user_data := user_data c |})).

Definition insert_latest_data (device_id : Z) (measurement_name : string)
  (timestamp : Z) (numeric_value : float) : M unit :=
  session_execute (fun c =>
    (tt, {| session := session c; cass_faults := cass_faults c;
            device_data := device_data c;
            latest_data := <[(device_id, measurement_name) :=
                               (timestamp, numeric_value)]> (latest_data c);
            user_data := user_data c |})).

Definition insert_user_data (user_id timestamp device_id : Z)
  (measurement_name : string) (numeric_value : float) : M unit :=
  session_execute (fun c =>
    (tt, {| session := session c; cass_faults := cass_faults c;
            device_data := device_data c;
            latest_data := latest_data c;
            user_data := <[(user_id, timestamp, device_id, measurement_name) :=
                             numeric_value]> (user_data c) |})).

(** [not device_id]: [None] and [0] alike. *)
Definition no_device (device_id : option Z) : bool :=
  match device_id with
  | None => true
  | Some d => d =? 0
  end.

Definition write_telemetry (device_id : option Z) (data : pyval float)
  (timestamp : option Z) (metadata : option (gmap string string)) : M bool :=
  if no_device device_id || negb (truthy data) then ret false
  else
    let dev := default 0 device_id in
    now <- time_time ;;
    let timestamp := default now timestamp in
    try_except
      (rows <- items data ;;
       for_each rows (fun '(measurement_name, v) =>
         (* Skip non-numeric values *)
         if negb (is_numeric v) then ret tt
         else
           numeric_value <- to_float v ;;
           (* Insert into device_data *)
           insert_device_data dev timestamp measurement_name numeric_value
             (default ∅ metadata) ;;;
           (* Update latest_data *)
           insert_latest_data dev measurement_name timestamp numeric_value) ;;;
       ret true)
      (fun _ => ret false).

Definition write_telemetry_with_user (device_id : option Z) (user_id : Z)
  (data : pyval float) (timestamp : option Z) : M bool :=
  ok <- write_telemetry device_id data timestamp None ;;
  if negb ok then ret false
  else
    now <- time_time ;;
    let timestamp := default now timestamp in
    try_except
      (rows <- items data ;;
       for_each rows (fun '(measurement_name, v) =>
         if negb (is_numeric v) then ret tt
         else
           numeric_value <- to_float v ;;
           (* Insert into user_data *)
           insert_user_data user_id timestamp (default 0 device_id)
             measurement_name numeric_value) ;;;
       ret true)
      (fun _ => ret false).

(** [timedelta(seconds=n)]: OverflowError beyond 999999999 days. *)
Definition timedelta (seconds : Z) : M Z :=
  if Z.abs (seconds `div` 86400) <=? 999999999 then ret seconds
  else raise OverflowError.

(** [t - delta] on [datetime]: OverflowError outside the years 1 to 9999. *)
Definition datetime_sub (t delta : Z) : M Z :=
  let r := t - delta in
  if (-62135596800 <=? r) && (r <=? 253402300799) then ret r
  else raise OverflowError.

Definition _parse_time_range (time_str : string) : M Z :=
  now <- time_time ;;
  if negb (RedisCacheService.nonempty time_str) || String.eqb time_str "now"
  then ret now
  else
    let try_iso (time_str : string) : M Z :=
      (* Try ISO format *)
      try_except
        (of_option ValueError
           (fromisoformat (replace_char "Z" "+00:00" time_str)))
        (fun _ => d <- timedelta (1 * 3600) ;; datetime_sub now d) in
    match time_str with
    | String "-" rest =>
        let time_str := rest in
        if endswith_char "h" time_str then
          hours <- of_option ValueError (int_of_str (drop_last time_str)) ;;
          d <- timedelta (hours * 3600) ;; datetime_sub now d
        else if endswith_char "d" time_str then
          days <- of_option ValueError (int_of_str (drop_last time_str)) ;;
          d <- timedelta (days * 86400) ;; datetime_sub now d
        else if endswith_char "w" time_str then
          weeks <- of_option ValueError (int_of_str (drop_last time_str)) ;;
          d <- timedelta (weeks * 604800) ;; datetime_sub now d
        else if endswith_char "m" time_str then
          minutes <- of_option ValueError (int_of_str (drop_last time_str)) ;;
          d <- timedelta (minutes * 60) ;; datetime_sub now d
        else try_iso time_str
    | _ => try_iso time_str
    end.

(** The rows of [latest_data] of one partition, as the dict the loop builds. *)
Definition latest_rows (device_id : Z) (c : cassandra) : gmap string float :=
  snd <$> default ∅
    (map_curry (M1 := gmap Z) (M2 := gmap string) (latest_data c) !! device_id).

Definition get_latest_telemetry (device_id : Z) : M (option (gmap string float)) :=
  try_except
    (measurements <- session_execute (fun c => (latest_rows device_id c, c)) ;;
     if decide (measurements = ∅) then ret None else ret (Some measurements))
    (fun _ => ret None).

Definition is_available : M bool :=
  fun w =>
    if session (cass w)
    then try_except (session_execute (fun c => (tt, c)) ;;; ret true)
                    (fun _ => ret false) w
    else (Ret false, w).

(** *** The history of a device *)

(** [row.timestamp.isoformat()]: the text of a timestamp as the driver
    returns it, a datetime without time zone. *)
Variable row_isoformat : Z -> string.

(** A row of [device_data] as the query returns it. *)
Record data_row : Type := {
  row_timestamp : Z;
  row_measurement_name : string;
  row_numeric_value : float
}.

Definition row_of (kv : (Z * Z * string) * (float * gmap string string)) : data_row :=
  {| row_timestamp := kv.1.1.2; row_measurement_name := kv.1.2;
     row_numeric_value := kv.2.1 |}.

(** CLUSTERING ORDER BY (timestamp DESC, measurement_name ASC) *)
Definition clustering (a b : data_row) : Prop :=
  Is_true ((row_timestamp b <? row_timestamp a)
           || ((row_timestamp a =? row_timestamp b)
               && String.leb (row_measurement_name a) (row_measurement_name b))).

(** WHERE device_id = %s AND timestamp >= %s AND timestamp <= %s *)
Definition in_range (device_id start_dt end_dt : Z) (key : Z * Z * string) : bool :=
  (key.1.1 =? device_id) && (start_dt <=? key.1.2) && (key.1.2 <=? end_dt).

(** The SELECT of [get_device_telemetry]: the rows of the partition in the
    range, in clustering order, at most [limit] of them; the server refuses a
    limit that is not positive. *)
Definition select_device_data (device_id start_dt end_dt limit : Z)
  : M (list data_row) :=
  if limit <=? 0
  then (session_execute (fun c => (tt, c)) ;;; raise DriverError)
  else
    session_execute (fun c =>
      (take (Z.to_nat limit)
         (merge_sort clustering
            (row_of <$>
               filter (fun kv : (Z * Z * string) * (float * gmap string string) =>
                         in_range device_id start_dt end_dt kv.1 = true)
                      (map_to_list (device_data c)))), c)).

(** [telemetry_by_time]: a dict in insertion order, from the text of the
    timestamp to the measurements of that instant. *)
Fixpoint group_add (ts name : string) (x : float)
  (groups : list (string * gmap string float)) : list (string * gmap string float) :=
  match groups with
  | [] => [(ts, {[ name := x ]})]
  | (t, ms) :: rest =>
      if String.eqb t ts then (t, <[name := x]> ms) :: rest
      else (t, ms) :: group_add ts name x rest
  end.

Definition group_rows (rows : list data_row) : list (string * gmap string float) :=
  foldl (fun acc row =>
           group_add (row_isoformat (row_timestamp row)) (row_measurement_name row)
             (row_numeric_value row) acc)
        [] rows.

(** [self._parse_time_range(end_time) if end_time else datetime.now(timezone.utc)] *)
Definition end_of_range (end_time : option string) : M Z :=
  match end_time with
  | Some s => if RedisCacheService.nonempty s then _parse_time_range s else time_time
  | None => time_time
  end.

(** Each element of the answer is the pair of the [timestamp] and the
    [measurements] of one dict. *)
Definition get_device_telemetry (device_id : Z) (start_time : string)
  (end_time : option string) (limit : Z) : M (list (string * gmap string float)) :=
  try_except
    (start_dt <- _parse_time_range start_time ;;
     end_dt <- end_of_range end_time ;;
     result <- select_device_data device_id start_dt end_dt limit ;;
     (* Group by timestamp *)
     ret (group_rows result))
    (fun _ => ret []).


End CassandraTelemetryService.
End CassandraTelemetryService.

(** ** services/mongodb_service.py *)

Module MongoDBService.
Section MongoDBService.
Context `{PyRuntime}.

(** [insert_one] on [event_logs]; the identifier is the position in the log. *)
Definition insert_one (e : event) : M Z :=
  fun w =>
    let m := mongo w in
    match mongo_faults m with
    | true :: fs =>
        (Raise PyMongoError,
         set_mongo {| mongo_faults := fs; event_logs := event_logs m |} w)
    | fs =>
        (Ret (Z.of_nat (length (event_logs m))),
         set_mongo {| mongo_faults := tail fs;
                      event_logs := event_logs m ++ [e] |} w)
    end.

Definition log_event (e : event) : M (option Z) :=
  try_except
    (now <- time_time ;;
     let e' := {| event_type := event_type e;
                  event_device_id := event_device_id e;
                  event_user_id := event_user_id e;
                  event_timestamp := Some (default now (event_timestamp e));
                  event_measurements := event_measurements e;
                  event_count := event_count e |} in
     i <- insert_one e' ;;
     ret (Some i))
    (fun _ => ret None).

End MongoDBService.
End MongoDBService.

(** ** The device model used by the routes *)

Module DeviceModel.
Section DeviceModel.
Context `{PyRuntime}.

(** One statement sent to the relational store. *)
Definition pg_call {A} (q : postgres -> A * postgres) : M A :=
  fun w =>
    let p := pg w in
    match pg_faults p with
    | true :: fs =>
        (Raise SQLAlchemyError, set_pg {| pg_faults := fs; devices := devices p |} w)
    | fs =>
        let '(a, p') := q p in
        (Ret a, set_pg {| pg_faults := tail fs; devices := devices p' |} w)
    end.

(** Modelled from the spec: [Device.query.get(ident)], the lookup of a device
    by primary key in the authoritative identity store; the model class is
    not among the sources.  An identifier that is not an integer is refused
    by the database. *)
Definition query_get (ident : pyval float) : M (option Device) :=
  match ident with
  | PInt z => pg_call (fun p => (List.find (fun d => id d =? z) (devices p), p))
  | PNone => ret None
  | _ => raise SQLAlchemyError
  end.

(** Modelled from the spec: [Device.query.filter_by(api_key=k).first()], the
    lookup of a device by API key in the authoritative identity store. *)
Definition query_by_api_key (k : string) : M (option Device) :=
  pg_call (fun p => (List.find (fun d => String.eqb (api_key d) k) (devices p), p)).

Definition touch (now : Z) (d : Device) : Device :=
  {| id := id d; user_id := user_id d; name := name d;
     device_type := device_type d; api_key := api_key d; status := status d;
     last_seen := Some now |}.

(** Modelled from the spec: [device.update_last_seen()], which stamps the
    device row with the current time. *)
Definition update_last_seen (d : Device) : M unit :=
  now <- time_time ;;
  pg_call (fun p =>
    (tt, {| pg_faults := pg_faults p;
            devices := (fun d' => if id d' =? id d then touch now d' else d')
                         <$> devices p |})).

End DeviceModel.
End DeviceModel.

(** ** routes/telemetry_postgres.py *)

Module Routes.
Section Routes.
Context `{PyRuntime}.

Record request : Type := {
  (** [request.headers.get("X-API-Key")] *)
  header_api_key : option string;
  (** [request.get_json()] *)
  json : pyval float
}.

Inductive payload : Type :=
  | Error (msg : string)
  | Stored (device_id : Z) (device_name : string) (timestamp : string)
  | NotStored
  | Latest (device_id : Z) (device_name : string)
      (latest_data : gmap string float) (cassandra_available : bool)
  | NoData (device_id : Z) (device_name : string) (cassandra_available : bool).

Definition response : Type := (payload * Z)%type.

Definition identity_of (device : Device) : pyval float :=
  PDict (<["device_id" := PInt (id device)]>
        (<["user_id" := PInt (user_id device)]>
        (<["status" := PStr (status device)]> ∅))).

(** [not api_key] *)
Definition no_api_key (k : option string) : bool :=
  match k with
  | Some s => negb (RedisCacheService.nonempty s)
  | None => true
  end.

(** [if cached_device:] on the Optional result of the cache. *)
Definition hit (cached : option (pyval float)) : option (pyval float) :=
  match cached with
  | Some v => if truthy v then Some v else None
  | None => None
  end.

(** Helper to get device by API key with Redis caching *)
Definition get_authenticated_device (req : request) (device_id : option Z)
  : M (Device + response) :=
  if no_api_key (header_api_key req)
  then ret (inr (Error "API key required", 401))
  else
    let api_key := default "" (header_api_key req) in
    (* Try Redis cache first *)
    cached_device <- RedisCacheService.get_device_by_api_key api_key ;;
    found <-
      match hit cached_device with
      | Some cd =>
          device_id_from_cache <- dict_get cd "device_id" PNone ;;
          mismatch <-
            match device_id with
            | Some did =>
                c <- int_of device_id_from_cache ;; ret (negb (c =? did))
            | None => ret false
            end ;;
          if (mismatch : bool)
          then ret (Some (inr (Error "Forbidden: device mismatch", 403)))
          else
            (* Get full device from database *)
            device <- DeviceModel.query_get device_id_from_cache ;;
            match device with
            | Some d => ret (Some (inl d))
            | None => ret None
            end
      | None => ret None
      end ;;
    match found with
    | Some r => ret r
    | None =>
        (* Cache miss - query database *)
        device <- DeviceModel.query_by_api_key api_key ;;
        match device with
        | None => ret (inr (Error "Invalid API key", 401))
        | Some d =>
            (* Cache the API key mapping *)
            RedisCacheService.cache_api_key api_key (identity_of d) 3600 ;;;
            match device_id with
            | Some did =>
                if negb (id d =? did)
                then ret (inr (Error "Forbidden: device mismatch", 403))
                else ret (inl d)
            | None => ret (inl d)
            end
        end
    end.

(** Lines 102 to 115 of [store_telemetry]: the device behind the API key. *)
Definition lookup_device (api_key : string) : M (option Device) :=
  (* Check Redis cache first *)
  cached_device <- RedisCacheService.get_device_by_api_key api_key ;;
  match hit cached_device with
  | Some cd =>
      ident <- subscript cd "device_id" ;;
      DeviceModel.query_get ident
  | None =>
      (* Cache miss - query database *)
      device <- DeviceModel.query_by_api_key api_key ;;
      match device with
      | Some d =>
          (* Cache the API key mapping *)
          RedisCacheService.cache_api_key api_key (identity_of d) 3600 ;;;
          ret (Some d)
      | None => ret None
      end
  end.

(** Lines 127 to 136 of [store_telemetry]: parse timestamp if provided.
    The left answer is the early return of the [except ValueError] branch;
    [endswith] exists on [str] only. *)
Definition parse_timestamp (timestamp_str : pyval float) : M (response + option Z) :=
  if truthy timestamp_str then
    try_except_only ValueError
      (match timestamp_str with
       | PStr s =>
           if endswith_char "Z" s
           then t <- of_option ValueError
                       (fromisoformat (replace_char "Z" "+00:00" s)) ;;
                ret (inr (Some t))
           else t <- of_option ValueError (fromisoformat s) ;;
                ret (inr (Some t))
       | _ => raise AttributeError
       end)
      (ret (inl (Error "Invalid timestamp format. Use ISO 8601 format.", 400)))
  else ret (inr None).

(** [list(telemetry_data.keys())] and [len(telemetry_data)] *)
Definition keys_and_count (v : pyval float) : M (list string * Z) :=
  match v with
  | PDict d => ret ((map_to_list d).*1, Z.of_nat (size d))
  | _ => raise AttributeError
  end.

(** Lines 149 to 153: update Redis cache with latest values.  A value that is
    not a [dict] makes [hset] raise inside the service, which answers
    [False]. *)
Definition update_cache (device : Device) (telemetry_data : pyval float) : M unit :=
  match telemetry_data with
  | PDict m => RedisCacheService.cache_latest_telemetry (id device) m 600
  | _ => ret false
  end ;;;
  RedisCacheService.set_device_online (id device) ;;;
  RedisCacheService.update_last_seen (id device) ;;;
  ret tt.

Definition store_telemetry (req : request) : M response :=
  try_except
    (let data := json req in
     if negb (truthy data) then ret (Error "No data provided", 400)
     else if no_api_key (header_api_key req)
     then ret (Error "API key required", 401)
     else
       let api_key := default "" (header_api_key req) in
       device <- lookup_device api_key ;;
       match device with
       | None => ret (Error "Invalid API key", 401)
       | Some device =>
           telemetry_data <- dict_get data "data" (PDict ∅) ;;
           metadata <- dict_get data "metadata" (PDict ∅) ;;
           timestamp_str <- dict_get data "timestamp" PNone ;;
           if negb (truthy telemetry_data)
           then ret (Error "Telemetry data is required", 400)
           else
             parsed <- parse_timestamp timestamp_str ;;
             match parsed with
             | inl bad_request => ret bad_request
             | inr timestamp =>
                 now <- time_time ;;
                 let timestamp := default now timestamp in
                 (* Store in Cassandra (primary storage) *)
                 cassandra_success <-
                   CassandraTelemetryService.write_telemetry_with_user
                     (Some (id device)) (user_id device) telemetry_data
                     (Some timestamp) ;;
                 (* Update Redis cache with latest values *)
                 (if (cassandra_success : bool)
                  then update_cache device telemetry_data
                  else ret tt) ;;;
                 (* Update device last_seen in PostgreSQL *)
                 DeviceModel.update_last_seen device ;;;
                 (* Log event to MongoDB *)
                 try_except
                   (kc <- keys_and_count telemetry_data ;;
                    MongoDBService.log_event
                      {| event_type := "telemetry.submitted";
                         event_device_id := id device;
                         event_user_id := user_id device;
                         event_timestamp := Some timestamp;
                         event_measurements := kc.1;
                         event_count := kc.2 |} ;;;
                    ret tt)
                   (fun _ => ret tt) ;;;
                 if cassandra_success
                 then ret (Stored (id device) (name device) (isoformat timestamp), 201)
                 else ret (NotStored, 500)
             end
       end)
    (fun _ => ret (Error "Internal server error", 500)).

(** [if not latest_data] on an Optional dict. *)
Definition some_data (o : option (gmap string float)) : option (gmap string float) :=
  match o with
  | Some m => if decide (m = ∅) then None else Some m
  | None => None
  end.

(** Lines 276 to 285 of [get_device_latest_telemetry]: Redis cache first,
    then Cassandra, whose answer is cached for next time. *)
Definition latest_with_fallback (device_id : Z) : M (option (gmap string float)) :=
  (* Try Redis cache first *)
  cached <- RedisCacheService.get_latest_telemetry device_id ;;
  match some_data cached with
  | Some m => ret (Some m)
  | None =>
      (* If not in cache, get from Cassandra *)
      stored <- CassandraTelemetryService.get_latest_telemetry device_id ;;
      match some_data stored with
      | Some m =>
          (* Cache it for next time *)
          RedisCacheService.cache_latest_telemetry device_id
            (PFloat <$> m) 600 ;;;
          ret (Some m)
      | None => ret None
      end
  end.

Definition get_device_latest_telemetry (req : request) (device_id : Z)
  : M response :=
  auth <- get_authenticated_device req (Some device_id) ;;
  match auth with
  | inr err => ret err
  | inl device =>
      try_except
        (latest_data <- latest_with_fallback device_id ;;
         available <- CassandraTelemetryService.is_available ;;
         match latest_data with
         | Some m => ret (Latest device_id (name device) m available, 200)
         | None => ret (NoData device_id (name device) available, 404)
         end)
        (fun _ => ret (Error "Internal server error", 500))
  end.

(** Readings of an answer: the status code, the error message, the stored
    timestamp and the dictionary of latest values. *)
Definition status_of (r : outcome response) : option Z :=
  match r with
  | Ret (_, code) => Some code
  | Raise _ => None
  end.

Definition message_of (r : outcome response) : option string :=
  match r with
  | Ret (Error msg, _) => Some msg
  | _ => None
  end.

Definition stamp_of (r : outcome response) : option string :=
  match r with
  | Ret (Stored _ _ t, _) => Some t
  | _ => None
  end.

Definition latest_of (r : outcome response) : option (gmap string float) :=
  match r with
  | Ret (Latest _ _ m _, _) => Some m
  | _ => None
  end.

(** The text handed to [fromisoformat] for a timestamp string. *)
Definition normalise (s : string) : string :=
  if endswith_char "Z" s then replace_char "Z" "+00:00" s else s.

Fixpoint has_char (c : ascii) (s : string) : bool :=
  match s with
  | EmptyString => false
  | String a r => Ascii.eqb a c || has_char c r
  end.

End Routes.
End Routes.

(** ** A reference runtime

    One concrete [PyRuntime], used to run the model on examples: floats with
    integral values written as Python writes integers, JSON for flat objects
    of integers and plain strings, and ISO-8601 instants of the form
    [YYYY-MM-DDTHH:MM:SS] with an optional [+HH:MM] or [-HH:MM] offset. *)

Module Reference.

Definition quote : ascii := ascii_of_nat 34.

Definition plain_char (c : ascii) : bool :=
  let n := nat_of_ascii c in
  (32 <=? n)%nat && (n <? 127)%nat && negb (n =? 34)%nat && negb (n =? 92)%nat.

Fixpoint plain (s : string) : bool :=
  match s with
  | EmptyString => true
  | String c r => plain_char c && plain r
  end.

Definition dumps_value (v : pyval Z) : option string :=
  match v with
  | PInt z => Some (str_of_int z)
  | PStr s => if plain s then Some (String quote s +:+ String quote "") else None
  | _ => None
  end.

Fixpoint dumps_members (l : list (string * pyval Z)) : option string :=
  match l with
  | [] => Some ""
  | (k, v) :: l' =>
      if plain k then
        match dumps_value v, dumps_members l' with
        | Some sv, Some rest =>
            Some (String quote k +:+ String quote ": " +:+ sv
                  +:+ (match l' with [] => "" | _ => ", " end) +:+ rest)
        | _, _ => None
        end
      else None
  end.

Definition dumps (v : pyval Z) : option string :=
  match v with
  | PDict d =>
      match dumps_members (map_to_list d) with
      | Some body => Some ("{" +:+ body +:+ "}")
      | None => None
      end
  | _ => dumps_value v
  end.

(** The text up to the next quote, and what follows the quote. *)
Fixpoint until_quote (s : string) : option (string * string) :=
  match s with
  | EmptyString => None
  | String c r =>
      if Ascii.eqb c quote then Some ("", r)
      else match until_quote r with
           | Some (a, b) => Some (String c a, b)
           | None => None
           end
  end.

Fixpoint span_number (s : string) : string * string :=
  match s with
  | String c r =>
      if is_digit c || Ascii.eqb c "-"
      then let '(a, b) := span_number r in (String c a, b)
      else ("", s)
  | EmptyString => ("", "")
  end.

Definition loads_value (s : string) : option (pyval Z * string) :=
  match s with
  | String c r =>
      if Ascii.eqb c quote then
        match until_quote r with
        | Some (a, b) => Some (PStr a, b)
        | None => None
        end
      else
        let '(a, b) := span_number s in
        match int_of_str a with
        | Some z => Some (PInt z, b)
        | None => None
        end
  | EmptyString => None
  end.

Fixpoint loads_members (fuel : nat) (s : string) (acc : gmap string (pyval Z))
  : option (gmap string (pyval Z)) :=
  match fuel with
  | O => None
  | S fuel' =>
      match s with
      | String c r =>
          if Ascii.eqb c quote then
            match until_quote r with
            | Some (k, String ":" (String " " rest)) =>
                match loads_value rest with
                | Some (v, String "," (String " " more)) =>
                    loads_members fuel' more (<[k := v]> acc)
                | Some (v, String "}" EmptyString) => Some (<[k := v]> acc)
                | _ => None
                end
            | _ => None
            end
          else None
      | EmptyString => None
      end
  end.

Definition loads (s : string) : option (pyval Z) :=
  match s with
  | String "{" (String "}" EmptyString) => Some (PDict ∅)
  | String "{" r => option_map PDict (loads_members (String.length s) r ∅)
  | _ => option_map fst
           (match loads_value s with
            | Some (v, EmptyString) => Some (v, tt)
            | _ => None
            end)
  end.

Definition digit_value (c : ascii) : option Z :=
  if is_digit c then Some (Z.of_nat (nat_of_ascii c) - 48) else None.

Definition two_digits (a b : ascii) : option Z :=
  match digit_value a, digit_value b with
  | Some x, Some y => Some (10 * x + y)
  | _, _ => None
  end.

Definition is_leap (y : Z) : bool :=
  ((y mod 4 =? 0) && negb (y mod 100 =? 0)) || (y mod 400 =? 0).

Definition days_in_month (y m : Z) : Z :=
  if m =? 2 then (if is_leap y then 29 else 28)
  else if (m =? 4) || (m =? 6) || (m =? 9) || (m =? 11) then 30 else 31.

(** Days from 1970-01-01 to the given civil date. *)
Definition days_from_civil (y m d : Z) : Z :=
  let y' := if m <=? 2 then y - 1 else y in
  let era := y' `div` 400 in
  let yoe := y' - era * 400 in
  let mp := (m + 9) `mod` 12 in
  let doy := (153 * mp + 2) `div` 5 + d - 1 in
  let doe := yoe * 365 + yoe `div` 4 - yoe `div` 100 + doy in
  era * 146097 + doe - 719468.

Definition offset_seconds (s : string) : option Z :=
  match s with
  | EmptyString => Some 0
  | String sg (String h1 (String h2 (String ":" (String m1 (String m2 EmptyString))))) =>
      match two_digits h1 h2, two_digits m1 m2 with
      | Some h, Some m =>
          if (h <? 24) && (m <? 60) then
            if Ascii.eqb sg "+" then Some (h * 3600 + m * 60)
            else if Ascii.eqb sg "-" then Some (- (h * 3600 + m * 60))
            else None
          else None
      | _, _ => None
      end
  | _ => None
  end.

Definition parse_iso (s : string) : option Z :=
  match s with
  | String y1 (String y2 (String y3 (String y4 (String "-"
    (String mo1 (String mo2 (String "-" (String d1 (String d2 (String "T"
    (String h1 (String h2 (String ":" (String mi1 (String mi2 (String ":"
    (String s1 (String s2 rest)))))))))))))))))) =>
      match two_digits y1 y2, two_digits y3 y4, two_digits mo1 mo2,
            two_digits d1 d2, two_digits h1 h2, two_digits mi1 mi2,
            two_digits s1 s2, offset_seconds rest with
      | Some ya, Some yb, Some mo, Some d, Some h, Some mi, Some sec, Some off =>
          let y := 100 * ya + yb in
          if (1 <=? y) && (1 <=? mo) && (mo <=? 12) && (1 <=? d)
             && (d <=? days_in_month y mo) && (h <? 24) && (mi <? 60)
             && (sec <? 60)
          then Some (days_from_civil y mo d * 86400 + h * 3600 + mi * 60 + sec - off)
          else None
      | _, _, _, _, _, _, _, _ => None
      end
  | _ => None
  end.

Definition pad2 (z : Z) : string :=
  if z <? 10 then "0" +:+ str_of_int z else str_of_int z.

Definition pad4 (z : Z) : string :=
  if z <? 10 then "000" +:+ str_of_int z
  else if z <? 100 then "00" +:+ str_of_int z
  else if z <? 1000 then "0" +:+ str_of_int z
  else str_of_int z.

(** The instant in UTC, as [datetime.now(timezone.utc).isoformat()] writes it
    without the microseconds. *)
Definition print_iso (t : Z) : string :=
  let days := t `div` 86400 in
  let secs := t `mod` 86400 in
  let z := days + 719468 in
  let era := z `div` 146097 in
  let doe := z - era * 146097 in
  let yoe := (doe - doe `div` 1460 + doe `div` 36524 - doe `div` 146096) `div` 365 in
  let doy := doe - (365 * yoe + yoe `div` 4 - yoe `div` 100) in
  let mp := (5 * doy + 2) `div` 153 in
  let d := doy - (153 * mp + 2) `div` 5 + 1 in
  let m := if mp <? 10 then mp + 3 else mp - 9 in
  let y := yoe + era * 400 + (if m <=? 2 then 1 else 0) in
  pad4 y +:+ "-" +:+ pad2 m +:+ "-" +:+ pad2 d +:+ "T"
  +:+ pad2 (secs `div` 3600) +:+ ":" +:+ pad2 ((secs `mod` 3600) `div` 60)
  +:+ ":" +:+ pad2 (secs `mod` 60) +:+ "+00:00".

(** A world with empty stores, healthy connections and the given devices. *)
Definition fresh_world `{PyRuntime} (now : Z) (ds : list Device) : world :=
  {| clock := now;
     redis := {| connected := true; faults := [];
                 srv := {| keyspace := ∅; published := [] |} |};
     cass := {| session := true; cass_faults := []; device_data := ∅;
                latest_data := ∅; user_data := ∅ |};
     mongo := {| mongo_faults := []; event_logs := [] |};
     pg := {| pg_faults := []; devices := ds |} |}.

End Reference.

(** * Properties *)

(** ** Text and integers *)

Module PyFacts.

Lemma all_digits_app s t :
  all_digits (s +:+ t) = all_digits s && all_digits t.
Proof.
  induction s as [|c s IH]; simpl; [done|].
  by rewrite IH, andb_assoc.
Qed.

Lemma string_of_uint_digits d : all_digits (NilEmpty.string_of_uint d) = true.
Proof. induction d; simpl; auto. Qed.

Lemma digit_not_space c : is_digit c = true -> is_space c = false.
Proof.
  unfold is_digit, is_space. intros Hd.
  apply andb_true_iff in Hd as [H1 H2].
  apply Nat.leb_le in H1. apply Nat.leb_le in H2.
  apply orb_false_iff; split; apply andb_false_iff.
  - right. apply Nat.leb_gt. lia.
  - right. apply Nat.leb_gt. lia.
Qed.

Lemma rstrip_digits s : all_digits s = true -> rstrip s = s.
Proof.
  induction s as [|c s IH]; simpl; [done|].
  intros [Hc Hs]%andb_true_iff. rewrite (IH Hs).
  destruct s; [|done]. by rewrite (digit_not_space c Hc).
Qed.

Lemma lstrip_digits s : all_digits s = true -> lstrip s = s.
Proof.
  destruct s as [|c s]; simpl; [done|].
  intros [Hc _]%andb_true_iff. by rewrite (digit_not_space c Hc).
Qed.

Lemma digit_groups_digits s :
  all_digits s = true -> s <> EmptyString -> digit_groups false s = Some s.
Proof.
  assert (Hgen : forall t, all_digits t = true -> digit_groups true t = Some t).
  { induction t as [|c t IH]; simpl; [done|].
    intros [Hc Ht]%andb_true_iff. by rewrite Hc, (IH Ht). }
  destruct s as [|c s]; [done|]. simpl.
  intros [Hc Hs]%andb_true_iff _. by rewrite Hc, (Hgen s Hs).
Qed.

Lemma nat_literal_pos p :
  nat_literal (NilEmpty.string_of_uint (Pos.to_uint p)) = Some (Z.pos p).
Proof.
  pose proof (Unsigned.to_uint_nonnil p) as Hnn.
  unfold nat_literal.
  rewrite digit_groups_digits.
  - replace (NilEmpty.string_of_uint (Pos.to_uint p))
      with (NilZero.string_of_uint (Pos.to_uint p))
      by (by destruct (Pos.to_uint p)).
    rewrite NilZero.usu by done. simpl.
    unfold Z.of_uint. by rewrite Unsigned.of_to.
  - apply string_of_uint_digits.
  - by destruct (Pos.to_uint p).
Qed.

Lemma first_digit p :
  exists c r, NilEmpty.string_of_uint (Pos.to_uint p) = String c r /\
              is_digit c = true.
Proof.
  pose proof (string_of_uint_digits (Pos.to_uint p)) as Hd.
  pose proof (Unsigned.to_uint_nonnil p) as Hnn.
  destruct (Pos.to_uint p); [done|..]; simpl in *; eauto.
Qed.

(** Reading back what [str] printed. *)
Lemma int_of_str_of_int z : int_of_str (str_of_int z) = Some z.
Proof.
  unfold int_of_str, str_of_int, strip.
  destruct z as [|p|p]; [reflexivity|..]; simpl.
  - pose proof (nat_literal_pos p) as Hl.
    destruct (first_digit p) as (c & r & Hs & Hc).
    replace (NilZero.string_of_uint (Pos.to_uint p))
      with (NilEmpty.string_of_uint (Pos.to_uint p))
      by (by destruct (Pos.to_uint p)).
    rewrite lstrip_digits, rstrip_digits by apply string_of_uint_digits.
    rewrite Hs in *. unfold signed_literal.
    assert (Ascii.eqb c "-" = false) as ->.
    { apply Ascii.eqb_neq. intros ->. done. }
    assert (Ascii.eqb c "+" = false) as ->.
    { apply Ascii.eqb_neq. intros ->. done. }
    done.
  - pose proof (nat_literal_pos p) as Hl.
    replace (NilZero.string_of_uint (Pos.to_uint p))
      with (NilEmpty.string_of_uint (Pos.to_uint p))
      by (by destruct (Pos.to_uint p)).
    pose proof (rstrip_digits _ (string_of_uint_digits (Pos.to_uint p))) as Hr.
    destruct (first_digit p) as (c & r & Hs & Hc).
    rewrite Hs in *. rewrite Hr. simpl. by rewrite Hl.
Qed.

Lemma int64_of_str_of_int z :
  - 2 ^ 63 <= z < 2 ^ 63 -> int64_of (str_of_int z) = Some z.
Proof.
  intros Hz. unfold int64_of, str_of_int.
  rewrite NilZero.isi.
  - simpl. rewrite DecimalZ.of_to. fold (str_of_int z).
    rewrite String.eqb_refl. simpl.
    destruct (Z.leb_spec (- 2 ^ 63) z); [|lia].
    destruct (Z.ltb_spec z (2 ^ 63)); [|lia]. done.
  - destruct z; simpl; try done.
    intros [= Hp]. by apply Unsigned.to_uint_nonnil in Hp.
  - destruct z; simpl; try done.
    intros [= Hp]. by apply Unsigned.to_uint_nonnil in Hp.
Qed.

End PyFacts.

(** The reference runtime satisfies the laws asked of [float]. *)
#[export] Instance reference_runtime : PyRuntime := {|
  float := Z;
  float_of_int := Some;
  float_repr := str_of_int;
  float_of_str := int_of_str;
  float_truth := fun z => negb (z =? 0);
  int_of_float := Some;
  float_of_repr := PyFacts.int_of_str_of_int;
  float_of_int_str := fun z x (E : Some z = Some x) =>
    eq_trans (PyFacts.int_of_str_of_int z) E;
  json_dumps := Reference.dumps;
  json_loads := Reference.loads;
  fromisoformat := Reference.parse_iso;
  isoformat := Reference.print_iso
|}.

(** ** Running the monad *)

Ltac unfold_monad :=
  unfold bind, ret, raise, try_except, try_except_only, of_option, time_time in *.

Section Running.
Context `{PyRuntime}.

Lemma world_eta (w : world) :
  {| clock := clock w; redis := redis w; cass := cass w; mongo := mongo w;
     pg := pg w |} = w.
Proof. by destruct w. Qed.

Lemma redis_eta (r : redis_client) :
  {| connected := connected r; faults := faults r; srv := srv r |} = r.
Proof. by destruct r. Qed.

(** A command on a healthy connection runs on the server. *)
Lemma client_call_ok {A} (cmd : Z -> server -> reply A) w :
  connected (redis w) = true -> faults (redis w) = [] ->
  client_call cmd w =
    ((cmd (clock w) (srv (redis w))).1,
     set_redis {| connected := true; faults := [];
                  srv := (cmd (clock w) (srv (redis w))).2 |} w).
Proof.
  intros Hc Hf. unfold client_call. rewrite Hc, Hf.
  by destruct (cmd (clock w) (srv (redis w))).
Qed.

Lemma bind_eq {A B} (m : M A) (k : A -> M B) w a w' :
  m w = (Ret a, w') -> bind m k w = k a w'.
Proof. unfold bind. by intros ->. Qed.

Lemma bind_raise_eq {A B} (m : M A) (k : A -> M B) w e w' :
  m w = (Raise e, w') -> bind m k w = (Raise e, w').
Proof. unfold bind. by intros ->. Qed.

Lemma try_ret_eq {A} (body : M A) (h : exn -> M A) w a w' :
  body w = (Ret a, w') -> try_except body h w = (Ret a, w').
Proof. unfold try_except. by intros ->. Qed.

Lemma try_raise_eq {A} (body : M A) (h : exn -> M A) w e w' :
  body w = (Raise e, w') -> try_except body h w = h e w'.
Proof. unfold try_except. by intros ->. Qed.

End Running.

(** ** Rate limiting (C3) *)

Module RateLimitFacts.
Import RedisCacheService.
Section RateLimitFacts.
Context `{PyRuntime}.

Definition rate_key (key : string) : string := "ratelimit:" +:+ key.


Definition healthy (w : world) : Prop :=
  connected (redis w) = true /\ faults (redis w) = [].


















End RateLimitFacts.




End RateLimitFacts.


(** ** Presence (C9, C10) *)

Module PresenceFacts.
Import RedisCacheService.

Section PresenceFacts.
Context `{PyRuntime}.

(** The presence records a reader sees: the sorted set under
    [devices:online], empty when the key is absent. *)
Definition records (w : world) (z : gmap string Z) : Prop :=
  match find (clock w) "devices:online" (srv (redis w)) with
  | Some e => value e = RZSet z
  | None => z = ∅
  end.


Lemma is_device_online_eval device_id w z :
  RateLimitFacts.healthy w -> records w z ->
  is_device_online device_id w =
    (Ret (match z !! str_of_int device_id with
          | Some sc => negb (sc =? 0) && (clock w - sc <? 300)
          | None => false
          end), w).
Proof.
  intros [Hc Hf] Hrec. unfold records in Hrec.
  unfold is_device_online. unfold_monad.
  rewrite client_call_ok by done. unfold ZSCORE.
  assert (Hw : set_redis {| connected := true; faults := [];
                            srv := srv (redis w) |} w = w).
  { unfold set_redis. rewrite <- Hc, <- Hf, redis_eta. apply world_eta. }
  destruct (find (clock w) "devices:online" (srv (redis w))) as [[v dl]|].
  - simpl in Hrec. subst v. simpl. rewrite Hw.
    destruct (z !! str_of_int device_id) as [sc|]; [|done].
    destruct (sc =? 0); done.
  - subst z. simpl. rewrite Hw. by rewrite lookup_empty.
Qed.


End PresenceFacts.

(** C10 at its failing input.  A device is marked online at time 700 and the
    two readings are taken at time 1000: the range query over [700, 1000]
    lists the device, the check [1000 - 700 < 300] says offline. *)
Theorem boundary_disagreement :
  let w0 := Reference.fresh_world 700 [] in
  let w1 := sleep 300 (set_device_online 7 w0).2 in
  (get_online_devices w1).1 = Ret [7]
  /\ (is_device_online 7 w1).1 = Ret false.
Proof. vm_compute. done. Qed.

(** The two readings also differ at the score 0, read at time 100. *)
Lemma zero_score_disagreement :
  let w0 := Reference.fresh_world 0 [] in
  let w1 := sleep 100 (set_device_online 7 w0).2 in
  (get_online_devices w1).1 = Ret [7]
  /\ (is_device_online 7 w1).1 = Ret false.
Proof. vm_compute. done. Qed.

End PresenceFacts.

(** ** The cache layer never raises (C6) *)

Module CacheLayerFacts.
Import RedisCacheService.

Section CacheLayerFacts.
Context `{PyRuntime}.

(** The server cannot be reached: there is no client object, or the next
    command meets a transport failure. *)
Definition unreachable (w : world) : Prop :=
  connected (redis w) = false \/ exists fs, faults (redis w) = true :: fs.

Definition returns {A} (m : M A) (w : world) : Prop :=
  exists a w', m w = (Ret a, w').

Lemma try_except_returns {A} (body : M A) (dflt : A) w :
  returns (try_except body (fun _ => ret dflt)) w.
Proof.
  unfold returns, try_except, ret.
  destruct (body w) as [[a|e] w']; eauto.
Qed.

Lemma client_call_unreachable {A} (cmd : Z -> server -> reply A) w :
  unreachable w -> exists e w', client_call cmd w = (Raise e, w').
Proof.
  intros [Hc|[fs Hf]]; unfold client_call.
  - rewrite Hc. eauto.
  - rewrite Hf. destruct (connected (redis w)); eauto.
Qed.

Lemma try_except_call_unreachable {A B} (cmd : Z -> server -> reply A)
  (k : A -> M B) (dflt : B) w :
  unreachable w ->
  (try_except (bind (client_call cmd) k) (fun _ => ret dflt) w).1 = Ret dflt.
Proof.
  intros Hd. destruct (client_call_unreachable cmd w Hd) as (e & w' & Hr).
  unfold try_except, bind, ret. by rewrite Hr.
Qed.

Lemma try_except_call1_unreachable {A} (cmd : Z -> server -> reply A)
  (dflt : A) w :
  unreachable w ->
  (try_except (client_call cmd) (fun _ => ret dflt) w).1 = Ret dflt.
Proof.
  intros Hd. destruct (client_call_unreachable cmd w Hd) as (e & w' & Hr).
  unfold try_except, ret. by rewrite Hr.
Qed.

Lemma try_except_dumps_unreachable {A B C} (o : option A) (e : exn)
  (cmd : A -> Z -> server -> reply B) (k : B -> M C) (dflt : C) w :
  unreachable w ->
  (try_except (bind (of_option e o) (fun a => bind (client_call (cmd a)) k))
     (fun _ => ret dflt) w).1 = Ret dflt.
Proof.
  intros Hd. destruct o as [a|]; unfold try_except, bind, of_option, ret, raise.
  - destruct (client_call_unreachable (cmd a) w Hd) as (e' & w' & Hr).
    by rewrite Hr.
  - done.
Qed.

Lemma try_except_dumps1_unreachable {A B} (o : option A) (e : exn)
  (cmd : A -> Z -> server -> reply B) (dflt : B) w :
  unreachable w ->
  (try_except (bind (of_option e o) (fun a => client_call (cmd a)))
     (fun _ => ret dflt) w).1 = Ret dflt.
Proof.
  intros Hd. destruct o as [a|]; unfold try_except, bind, of_option, ret, raise.
  - destruct (client_call_unreachable (cmd a) w Hd) as (e' & w' & Hr).
    by rewrite Hr.
  - done.
Qed.

Lemma try_except_time_unreachable {A B} (cmd : Z -> Z -> server -> reply A)
  (k : Z -> A -> M B) (dflt : B) w :
  unreachable w ->
  (try_except (bind time_time (fun t => bind (client_call (cmd t)) (k t)))
     (fun _ => ret dflt) w).1 = Ret dflt.
Proof.
  intros Hd. unfold try_except, bind, time_time, ret.
  destruct (client_call_unreachable (cmd (clock w)) w Hd) as (e' & w' & Hr).
  by rewrite Hr.
Qed.

Lemma perform_returns {A} (o : operation A) w : returns (perform o) w.
Proof.
  destruct o; simpl; try apply try_except_returns.
  unfold returns, is_available. destruct (connected (redis w)).
  - apply try_except_returns.
  - eauto.
Qed.

End CacheLayerFacts.

(** C6.  Every operation of the cache layer returns a value and never
    raises, whatever the state of the connection and of the server; when the
    server cannot be reached the value is the operation's default ([False],
    [None], an empty list, 0, -1, the full budget), [is_available] included;
    and [check_rate_limit] answers [False] only after it has read a counter
    that is at or above the limit, so that every error lets the request
    through. *)
Theorem cache_layer_suppresses `{PyRuntime} :
  (forall A (o : operation A) w, returns (perform o) w)
  /\ (forall A (o : operation A) w,
        unreachable w -> (perform o w).1 = Ret (fallback o))
  /\ (forall key n window w,
        (check_rate_limit key n window w).1 = Ret false ->
        exists cur count,
          (GET (clock w) ("ratelimit:" +:+ key) (srv (redis w))).1 = Ret (Some cur)
          /\ int_of_str cur = Some count /\ n <= count
          /\ connected (redis w) = true
          /\ ~ (exists fs, faults (redis w) = true :: fs)).
Proof.
  split_and!.
  - intros A o w. apply perform_returns.
  - intros A o w Hd. destruct o; simpl;
      try (apply try_except_call_unreachable; exact Hd);
      try (apply try_except_call1_unreachable; exact Hd);
      try (apply try_except_dumps_unreachable; exact Hd);
      try (apply try_except_dumps1_unreachable; exact Hd);
      try (apply try_except_time_unreachable; exact Hd).
    + unfold is_available. destruct Hd as [Hc|[fs Hf]].
      * by rewrite Hc.
      * destruct (connected (redis w)); [|done].
        apply try_except_call1_unreachable. right. eauto.
    + (* bulk_delete *)
      unfold bulk_delete. destruct ks; [done|].
      by apply try_except_call_unreachable.
  - intros key n window w Hr.
    unfold check_rate_limit in Hr. unfold_monad.
    unfold client_call in Hr at 1.
    destruct (connected (redis w)) eqn:Hc; [|done].
    destruct (faults (redis w)) as [|[] fs] eqn:Hf; try done.
    + destruct (GET (clock w) ("ratelimit:" +:+ key) (srv (redis w)))
        as [[[cur|]|e] s'] eqn:HG; simpl in Hr.
      * destruct (int_of_str cur) as [count|] eqn:Hi; simpl in Hr; [|done].
        destruct (Z.leb_spec n count).
        -- exists cur, count. split_and!; try done. intros [? ?]. done.
        -- by destruct (client_call _ _) as [[?|?] ?].
      * by destruct (client_call _ _) as [[?|?] ?].
      * done.
    + destruct (GET (clock w) ("ratelimit:" +:+ key) (srv (redis w)))
        as [[[cur|]|e] s'] eqn:HG; simpl in Hr.
      * destruct (int_of_str cur) as [count|] eqn:Hi; simpl in Hr; [|done].
        destruct (Z.leb_spec n count).
        -- exists cur, count. split_and!; try done. intros [? ?]. done.
        -- by destruct (client_call _ _) as [[?|?] ?].
      * by destruct (client_call _ _) as [[?|?] ?].
      * done.
Qed.

End CacheLayerFacts.

(** ** The time-series store (C8, C4) *)

Module CassandraFacts.
Import CassandraTelemetryService.

Section CassandraFacts.
Context `{PyRuntime}.

Lemma for_each_returns_or_raises {A} (l : list A) (body : A -> M unit) w :
  exists o w', for_each l body w = (o, w').
Proof. destruct (for_each l body w) as [o w']. eauto. Qed.

Lemma write_telemetry_returns device_id data ts md w :
  exists b w', write_telemetry device_id data ts md w = (Ret b, w').
Proof.
  unfold write_telemetry.
  destruct (no_device device_id || negb (truthy data)); [unfold ret; eauto|].
  unfold bind at 1. unfold time_time.
  apply CacheLayerFacts.try_except_returns.
Qed.

Lemma write_telemetry_with_user_returns device_id user_id data ts w :
  exists b w', write_telemetry_with_user device_id user_id data ts w = (Ret b, w').
Proof.
  unfold write_telemetry_with_user.
  destruct (write_telemetry_returns device_id data ts None w) as (b & w1 & Hw).
  unfold bind at 1. rewrite Hw.
  destruct b; simpl; [|unfold ret; eauto].
  unfold bind at 1. unfold time_time.
  apply CacheLayerFacts.try_except_returns.
Qed.

End CassandraFacts.

(** C8.  [write_telemetry] never raises, and when the device id is absent or
    the measurements are empty it returns [False] and writes nothing; so does
    [write_telemetry_with_user], which delegates to it.  The check is made by
    the store layer itself. *)
Theorem write_validates `{PyRuntime} :
  (forall device_id data ts md w,
      exists b w', write_telemetry device_id data ts md w = (Ret b, w'))
  /\ (forall device_id user_id data ts md w,
        device_id = None \/ data = PDict ∅ ->
        write_telemetry device_id data ts md w = (Ret false, w)
        /\ write_telemetry_with_user device_id user_id data ts w = (Ret false, w)).
Proof.
  split; [apply write_telemetry_returns|].
  intros device_id user_id data ts md w Hbad.
  assert (Hw : forall md', write_telemetry device_id data ts md' w = (Ret false, w)).
  { intros md'. unfold write_telemetry.
    destruct Hbad as [-> | ->]; simpl.
    - done.
    - rewrite bool_decide_eq_false_2 by (intros Hne; by apply Hne).
      simpl. by rewrite orb_true_r. }
  split; [apply Hw|].
  unfold write_telemetry_with_user, bind. by rewrite Hw.
Qed.

(** A write without a device id, and a write of an empty map. *)
Lemma write_validates_witness :
  let w := Reference.fresh_world 1000 [] in
  write_telemetry None (PDict {[ "temperature" := PInt 23 ]}) None None w
    = (Ret false, w)
  /\ write_telemetry_with_user (Some 7) 1 (PDict ∅) None w = (Ret false, w).
Proof.
  pose proof (proj2 write_validates) as Hv. split.
  - apply (Hv None 1). by left.
  - apply (Hv (Some 7) 1 (PDict ∅) None None). by right.
Defined.

(** C4 at its failing input.  The relative form [-xh] reaches [int("x")]
    outside any [try]: the ValueError leaves [_parse_time_range] instead of
    the default of one hour ago. *)
Theorem parse_time_range_raises `{PyRuntime} w :
  _parse_time_range "-xh" w = (Raise ValueError, w).
Proof. reflexivity. Qed.

End CassandraFacts.

(** ** Submission (C7, C1) *)

Module SubmitFacts.
Import Routes.

Section SubmitFacts.
Context `{PyRuntime}.

Definition bad_timestamp : response :=
  (Error "Invalid timestamp format. Use ISO 8601 format.", 400).

Lemma parse_timestamp_str s w :
  s <> "" ->
  parse_timestamp (PStr s) w =
    (Ret (match fromisoformat (normalise s) with
          | Some t => inr (Some t)
          | None => inl bad_timestamp
          end), w).
Proof.
  intros Hs. destruct s as [|c s]; [done|].
  unfold parse_timestamp, normalise.
  change (truthy (PStr (String c s))) with true. cbv iota.
  unfold try_except_only, bind, of_option, ret, raise.
  destruct (endswith_char "Z" (String c s));
    match goal with |- context [fromisoformat ?x] =>
      destruct (fromisoformat x) end; done.
Qed.

Lemma parse_timestamp_absent w :
  parse_timestamp PNone w = (Ret (inr None), w)
  /\ parse_timestamp (PStr "") w = (Ret (inr None), w).
Proof. done. Qed.

Lemma endswith_char_app c s : endswith_char c (s +:+ String c "") = true.
Proof.
  induction s as [|a s IH]; simpl.
  - apply Ascii.eqb_refl.
  - destruct (s +:+ String c "") eqn:E; [by destruct s|done].
Qed.

Lemma replace_char_app c t s1 s2 :
  replace_char c t (s1 +:+ s2) = replace_char c t s1 +:+ replace_char c t s2.
Proof.
  assert (Hassoc : forall x y z : string, x +:+ (y +:+ z) = (x +:+ y) +:+ z).
  { induction x as [|b x IHx]; intros y z; [done|].
    change (String b (x +:+ (y +:+ z)) = String b ((x +:+ y) +:+ z)).
    by rewrite IHx. }
  induction s1 as [|a s1 IH]; [done|].
  change (replace_char c t (String a s1 +:+ s2))
    with (if Ascii.eqb a c then t +:+ replace_char c t (s1 +:+ s2)
          else String a (replace_char c t (s1 +:+ s2))).
  change (replace_char c t (String a s1))
    with (if Ascii.eqb a c then t +:+ replace_char c t s1
          else String a (replace_char c t s1)).
  rewrite IH. destruct (Ascii.eqb a c); [apply Hassoc|done].
Qed.

Lemma replace_char_absent c t s :
  has_char c s = false -> replace_char c t s = s.
Proof.
  induction s as [|a s IH]; simpl; [done|].
  intros [Ha Hs]%orb_false_iff. by rewrite Ha, IH.
Qed.

(** A trailing [Z] is read as the offset of UTC. *)
Lemma normalise_trailing_Z body :
  has_char "Z" body = false -> normalise (body +:+ "Z") = body +:+ "+00:00".
Proof.
  intros Hb. unfold normalise. rewrite (endswith_char_app "Z" body).
  rewrite replace_char_app, replace_char_absent by done. done.
Qed.

(** The request has passed the checks that come before the timestamp: a
    JSON object, an API key that resolves to a device, measurements. *)
Record validated (req : request) (w : world) (device : Device) (w1 : world)
  (body : gmap string (pyval float)) (telemetry_data : pyval float) : Prop := {
  v_json : json req = PDict body;
  v_key : no_api_key (header_api_key req) = false;
  v_device : lookup_device (default "" (header_api_key req)) w
             = (Ret (Some device), w1);
  v_data : body !! "data" = Some telemetry_data;
  v_truthy : truthy telemetry_data = true
}.

Lemma validated_nonempty req w device w1 body td :
  validated req w device w1 body td -> truthy (json req) = true.
Proof.
  intros V. rewrite (v_json _ _ _ _ _ _ V). simpl.
  apply bool_decide_eq_true. intros ->.
  pose proof (v_data _ _ _ _ _ _ V) as Hd. by rewrite lookup_empty in Hd.
Qed.

(** What is left of [store_telemetry] once the request is validated. *)
Lemma store_telemetry_validated req w device w1 body td :
  validated req w device w1 body td ->
  store_telemetry req w =
    try_except
      (parsed <- parse_timestamp (default PNone (body !! "timestamp")) ;;
       match parsed with
       | inl bad_request => ret bad_request
       | inr timestamp =>
           now <- time_time ;;
           let timestamp := default now timestamp in
           cassandra_success <-
             CassandraTelemetryService.write_telemetry_with_user
               (Some (id device)) (user_id device) td (Some timestamp) ;;
           (if (cassandra_success : bool)
            then update_cache device td
            else ret tt) ;;;
           DeviceModel.update_last_seen device ;;;
           try_except
             (kc <- keys_and_count td ;;
              MongoDBService.log_event
                {| event_type := "telemetry.submitted";
                   event_device_id := id device;
                   event_user_id := user_id device;
                   event_timestamp := Some timestamp;
                   event_measurements := kc.1;
                   event_count := kc.2 |} ;;;
              ret tt)
             (fun _ => ret tt) ;;;
           if cassandra_success
           then ret (Stored (id device) (name device) (isoformat timestamp), 201)
           else ret (NotStored, 500)
       end)
      (fun _ => ret (Error "Internal server error", 500)) w1.
Proof.
  intros V. pose proof (validated_nonempty _ _ _ _ _ _ V) as Hj.
  destruct V as [Vj Vk Vd Vdata Vt].
  unfold store_telemetry. rewrite Hj, Vk. simpl.
  unfold try_except at 1. unfold bind at 1. rewrite Vd.
  rewrite Vj. simpl. unfold bind at 1. unfold ret at 1.
  unfold bind at 1. unfold ret at 1. unfold bind at 1. unfold ret at 1.
  rewrite Vdata. simpl. rewrite Vt. simpl.
  reflexivity.
Qed.

Lemma update_cache_returns device td w :
  exists w', update_cache device td w = (Ret tt, w').
Proof.
  unfold update_cache.
  assert (H1 : CacheLayerFacts.returns
                 (match td with
                  | PDict m => RedisCacheService.cache_latest_telemetry (id device) m 600
                  | _ => ret false
                  end) w).
  { destruct td; try (unfold CacheLayerFacts.returns, ret; eauto).
    apply (CacheLayerFacts.perform_returns
             (RedisCacheService.op_cache_latest_telemetry _ _ _)). }
  destruct H1 as (b1 & w1 & E1). unfold bind at 1. rewrite E1.
  destruct (CacheLayerFacts.perform_returns
              (RedisCacheService.op_set_device_online (id device)) w1)
    as (b2 & w2 & E2). simpl in E2.
  unfold bind at 1. rewrite E2.
  destruct (CacheLayerFacts.perform_returns
              (RedisCacheService.op_update_last_seen (id device)) w2)
    as (b3 & w3 & E3). simpl in E3.
  unfold bind at 1. rewrite E3.
  unfold ret. eauto.
Qed.

Lemma pg_update_frame device w :
  redis (DeviceModel.update_last_seen device w).2 = redis w
  /\ cass (DeviceModel.update_last_seen device w).2 = cass w.
Proof.
  unfold DeviceModel.update_last_seen, DeviceModel.pg_call, bind, time_time.
  destruct (pg_faults (pg w)) as [|[] fs]; done.
Qed.

Lemma log_returns td (e : list string * Z -> event) w :
  exists w',
    try_except
      (kc <- keys_and_count td ;;
       MongoDBService.log_event (e kc) ;;;
       ret tt)
      (fun _ => ret tt) w = (Ret tt, w')
    /\ redis w' = redis w /\ cass w' = cass w.
Proof.
  unfold try_except, bind, keys_and_count, ret, raise.
  destruct td; try (eexists; split_and!; done).
  unfold MongoDBService.log_event, MongoDBService.insert_one.
  unfold try_except, bind, time_time, ret.
  destruct (mongo_faults (mongo w)) as [|[] fs]; eexists; split_and!; done.
Qed.

(** The response of a validated submission whose timestamp is resolved. *)
Lemma store_telemetry_outcome req w device w1 body td t (ok : bool) :
  validated req w device w1 body td ->
  parse_timestamp (default PNone (body !! "timestamp")) w1 = (Ret (inr t), w1) ->
  let stamp := default (clock w1) t in
  let written :=
    CassandraTelemetryService.write_telemetry_with_user
      (Some (id device)) (user_id device) td (Some stamp) w1 in
  let w3 := if ok then (update_cache device td written.2).2 else written.2 in
  written.1 = Ret ok ->
  (DeviceModel.update_last_seen device w3).1 = Ret tt ->
  exists w',
    store_telemetry req w =
      (Ret (if ok
            then (Stored (id device) (name device) (isoformat stamp), 201)
            else (NotStored, 500)), w')
    /\ redis w' = redis w3 /\ cass w' = cass w3.
Proof.
  intros V Hp stamp written w3 Hw Hpg.
  rewrite (store_telemetry_validated _ _ _ _ _ _ V).
  unfold try_except at 1. unfold bind at 1. rewrite Hp.
  unfold bind at 1. unfold time_time at 1.
  unfold bind at 1. fold stamp. fold written.
  destruct written as [o w2] eqn:Ew. simpl in Hw. subst o.
  assert (Hc : (if ok then update_cache device td else ret tt) w2 = (Ret tt, w3)).
  { subst w3. simpl. destruct ok; [|done].
    destruct (update_cache_returns device td w2) as (w' & E). by rewrite E. }
  unfold bind at 1. rewrite Hc.
  destruct (DeviceModel.update_last_seen device w3) as [o4 w4] eqn:E4.
  simpl in Hpg. subst o4.
  unfold bind at 1. rewrite E4.
  destruct (log_returns td
              (fun kc => {| event_type := "telemetry.submitted";
                            event_device_id := id device;
                            event_user_id := user_id device;
                            event_timestamp := Some stamp;
                            event_measurements := kc.1;
                            event_count := kc.2 |}) w4)
    as (w5 & E5 & Hr5 & Hc5).
  unfold bind at 1. rewrite E5.
  pose proof (pg_update_frame device w3) as [Hr4 Hc4]. rewrite E4 in Hr4, Hc4.
  simpl in Hr4, Hc4.
  exists w5. split_and!.
  - by destruct ok.
  - congruence.
  - congruence.
Qed.

(** The submission is stored under the instant [stamp]: when the write and
    the relational update go through, the answer is 201 and carries [stamp]. *)
Definition submitted_at (req : request) (w : world) (device : Device)
  (w1 : world) (td : pyval float) (stamp : Z) : Prop :=
  let written :=
    CassandraTelemetryService.write_telemetry_with_user
      (Some (id device)) (user_id device) td (Some stamp) w1 in
  written.1 = Ret true ->
  (DeviceModel.update_last_seen device (update_cache device td written.2).2).1
    = Ret tt ->
  status_of (store_telemetry req w).1 = Some 201
  /\ stamp_of (store_telemetry req w).1 = Some (isoformat stamp).

Lemma submitted_at_resolved req w device w1 body td t :
  validated req w device w1 body td ->
  parse_timestamp (default PNone (body !! "timestamp")) w1 = (Ret (inr t), w1) ->
  submitted_at req w device w1 td (default (clock w1) t).
Proof.
  intros V Hp Hw Hpg.
  destruct (store_telemetry_outcome req w device w1 body td t true V Hp Hw Hpg)
    as (w' & E & _).
  rewrite E. done.
Qed.

(** The claims about submission, as predicates on one request. *)

Definition timestamp_of (req : request) : option (pyval float) :=
  match json req with
  | PDict body => body !! "timestamp"
  | _ => None
  end.

(** C7 as stated: every malformed timestamp string is answered with 400. *)
Definition rejects_malformed (req : request) (w : world) : Prop :=
  forall s, timestamp_of req = Some (PStr s) ->
    fromisoformat (normalise s) = None ->
    status_of (store_telemetry req w).1 = Some 400.

End SubmitFacts.

(** C7, as amended.  For a validated submission: a timestamp string that is
    not empty and that [fromisoformat] refuses (after a trailing [Z] is
    rewritten) is answered with 400 and nothing is written; one that it
    accepts is the instant the telemetry is stored under; a trailing [Z] is
    read as [+00:00]; without a timestamp, and also with the empty string,
    the instant is the current time. *)
Theorem timestamp_resolution `{PyRuntime} req w device w1 body td :
  validated req w device w1 body td ->
  (forall s, body !! "timestamp" = Some (PStr s) -> s <> "" ->
     fromisoformat (normalise s) = None ->
     store_telemetry req w = (Ret bad_timestamp, w1))
  /\ (forall s t, body !! "timestamp" = Some (PStr s) -> s <> "" ->
       fromisoformat (normalise s) = Some t ->
       submitted_at req w device w1 td t)
  /\ (forall b, has_char "Z" b = false -> normalise (b +:+ "Z") = b +:+ "+00:00")
  /\ (body !! "timestamp" = None \/ body !! "timestamp" = Some (PStr "") ->
      submitted_at req w device w1 td (clock w1)).
Proof.
  intros V. split_and!.
  - intros s Hs Hne Hbad.
    rewrite (store_telemetry_validated _ _ _ _ _ _ V).
    unfold try_except, bind. rewrite Hs. simpl default.
    rewrite (parse_timestamp_str s w1 Hne), Hbad. done.
  - intros s t Hs Hne Hok.
    apply (submitted_at_resolved req w device w1 body td (Some t) V).
    rewrite Hs. simpl default. by rewrite (parse_timestamp_str s w1 Hne), Hok.
  - apply normalise_trailing_Z.
  - intros Hno.
    apply (submitted_at_resolved req w device w1 body td None V).
    destruct Hno as [-> | ->]; done.
Qed.

End SubmitFacts.

(** ** Examples on the reference runtime *)

Module Examples.
Import Routes SubmitFacts.

Definition sensor : Device :=
  {| id := 7; user_id := 1; name := "sensor"; device_type := "thermometer";
     api_key := "k7"; status := "active"; last_seen := None |}.

Definition w0 : world := Reference.fresh_world 1000 [sensor].

Definition readings : pyval Z :=
  PDict (<["temperature" := PInt 23]> (<["status" := PStr "ok"]> ∅)).

Definition submission (fields : gmap string (pyval Z)) : request :=
  {| header_api_key := Some "k7"; json := PDict fields |}.

Definition plain_fields : gmap string (pyval Z) := <["data" := readings]> ∅.

Definition with_timestamp (v : pyval Z) : gmap string (pyval Z) :=
  <["timestamp" := v]> plain_fields.

Lemma lookup_device_sensor :
  lookup_device "k7" w0 = (Ret (Some sensor), (lookup_device "k7" w0).2).
Proof.
  rewrite (surjective_pairing (lookup_device "k7" w0)) at 1.
  f_equal; vm_compute; done.
Qed.

Lemma validated_submission fields :
  fields !! "data" = Some readings ->
  validated (submission fields) w0 sensor (lookup_device "k7" w0).2 fields readings.
Proof.
  intros Hd. split; first [apply lookup_device_sensor | done].
Qed.

End Examples.

(** A submission whose timestamp is the word [yesterday] is answered 400. *)
Lemma timestamp_resolution_witness :
  Routes.store_telemetry
    (Examples.submission (Examples.with_timestamp (PStr "yesterday")))
    Examples.w0
  = (Ret SubmitFacts.bad_timestamp, (Routes.lookup_device "k7" Examples.w0).2).
Proof.
  refine (proj1 (SubmitFacts.timestamp_resolution _ _ _ _ _ _
            (Examples.validated_submission _ _)) "yesterday" _ _ _).
  - done.
  - done.
  - done.
  - vm_compute. done.
Defined.

(** C7 as stated fails on the empty string: it is a string, [fromisoformat]
    refuses it, and the submission is stored under the current time and
    answered 201, because [if timestamp_str:] skips the parse. *)
Lemma empty_timestamp_counterexample :
  ~ SubmitFacts.rejects_malformed
      (Examples.submission (Examples.with_timestamp (PStr ""))) Examples.w0.
Proof.
  intros Hc.
  assert (Hs : Routes.status_of
                 (Routes.store_telemetry
                    (Examples.submission (Examples.with_timestamp (PStr "")))
                    Examples.w0).1 = Some 400).
  { apply (Hc ""); vm_compute; done. }
  vm_compute in Hs. discriminate Hs.
Qed.

(** C1 at its failing input.  The submission carries the number 5 as its
    timestamp.  [endswith] exists on [str] only: the AttributeError is not the
    ValueError the timestamp handler answers with 400, it reaches the outer
    handler and the submission is answered 500, the status of a failed write,
    although no write was attempted and the time-series tables are as they
    were.  The same submission with the word [yesterday] as its timestamp is
    answered 400. *)
Theorem non_string_timestamp_aborts :
  let w := Examples.w0 in
  let r := Routes.store_telemetry
             (Examples.submission (Examples.with_timestamp (PInt 5))) w in
  Routes.status_of r.1 = Some 500
  /\ Routes.message_of r.1 = Some "Internal server error"
  /\ device_data (cass r.2) = device_data (cass w)
  /\ latest_data (cass r.2) = latest_data (cass w)
  /\ user_data (cass r.2) = user_data (cass w)
  /\ Routes.status_of
       (Routes.store_telemetry
          (Examples.submission (Examples.with_timestamp (PStr "yesterday"))) w).1
     = Some 400.
Proof. cbv zeta. split_and!; vm_compute; reflexivity. Qed.

(** ** Latest values: the store, the cache and the read path (C2, C5) *)

Module LatestFacts.
Import Routes CassandraTelemetryService.

Section LatestFacts.
Context `{PyRuntime}.

Definition cass_healthy (w : world) : Prop :=
  session (cass w) = true /\ cass_faults (cass w) = [].

Lemma latest_rows_lookup device_id c k :
  latest_rows device_id c !! k = snd <$> latest_data c !! (device_id, k).
Proof.
  unfold latest_rows. rewrite lookup_fmap. f_equal.
  rewrite <- (lookup_map_curry (M1 := gmap Z) (M2 := gmap string)).
  destruct (map_curry (latest_data c) !! device_id); simpl; [done|].
  apply lookup_empty.
Qed.

Lemma session_execute_ok {A} (stmt : cassandra -> A * cassandra) w :
  cass_healthy w ->
  session_execute stmt w =
    (Ret (stmt (cass w)).1,
     set_cass {| session := true; cass_faults := [];
                 device_data := device_data (stmt (cass w)).2;
                 latest_data := latest_data (stmt (cass w)).2;
                 user_data := user_data (stmt (cass w)).2 |} w).
Proof.
  intros [Hs Hf]. unfold session_execute. rewrite Hs, Hf.
  by destruct (stmt (cass w)).
Qed.

(** One turn of the loop of [write_telemetry] on the latest rows. *)
Definition put_latest (device_id ts : Z) (acc : gmap (Z * string) (Z * float))
  (row : string * pyval float) : gmap (Z * string) (Z * float) :=
  match numeric_value row.2 with
  | Some x => <[(device_id, row.1) := (ts, x)]> acc
  | None => acc
  end.

(** No integer of the rows is too large for a [float]. *)
Definition convertible (rows : list (string * pyval float)) : Prop :=
  Forall (fun row => is_numeric row.2 = true -> is_Some (numeric_value row.2)) rows.

(** The body of the loop of [write_telemetry]. *)
Definition write_row (device_id ts : Z) (md : gmap string string)
  (row : string * pyval float) : M unit :=
  let '(measurement_name, v) := row in
  if negb (is_numeric v) then ret tt
  else
    numeric_value <- to_float v ;;
    insert_device_data device_id ts measurement_name numeric_value md ;;;
    insert_latest_data device_id measurement_name ts numeric_value.

Lemma write_row_ok device_id ts md k v w :
  cass_healthy w -> (is_numeric v = true -> is_Some (numeric_value v)) ->
  exists w',
    write_row device_id ts md (k, v) w = (Ret tt, w')
    /\ cass_healthy w' /\ redis w' = redis w /\ clock w' = clock w
    /\ latest_data (cass w') = put_latest device_id ts (latest_data (cass w)) (k, v).
Proof.
  intros Hw Hv. unfold write_row, put_latest. simpl.
  destruct (is_numeric v) eqn:Hn; cbn [negb].
  - destruct (Hv eq_refl) as [x Hx]. rewrite Hx.
    assert (Hf : to_float v w = (Ret x, w)).
    { destruct v; try done; simpl in *; [by rewrite Hx|unfold ret; congruence]. }
    rewrite (bind_eq _ _ _ _ _ Hf).
    unfold insert_device_data.
    erewrite bind_eq by (by apply session_execute_ok).
    unfold insert_latest_data. rewrite session_execute_ok by done.
    eexists. split; [reflexivity|]. done.
  - exists w. destruct v; done.
Qed.

Lemma write_loop device_id ts md rows : forall w,
  cass_healthy w -> convertible rows ->
  exists w',
    for_each rows (write_row device_id ts md) w = (Ret tt, w')
    /\ cass_healthy w' /\ redis w' = redis w /\ clock w' = clock w
    /\ latest_data (cass w') = foldl (put_latest device_id ts) (latest_data (cass w)) rows.
Proof.
  induction rows as [|[k v] rows IH]; intros w Hw Hconv.
  - exists w. done.
  - apply Forall_cons in Hconv as [Hv Hconv]. simpl in Hv.
    destruct (write_row_ok device_id ts md k v w Hw Hv)
      as (w1 & E1 & Hh1 & Hr1 & Hc1 & Hl1).
    destruct (IH w1 Hh1 Hconv) as (w' & E & Hh & Hr & Hc & Hl).
    exists w'. cbn [for_each foldl].
    rewrite (bind_eq _ _ _ _ _ E1), E. split_and!; try done; try congruence.
Qed.

Lemma foldl_put_latest device_id ts k (l : list (string * pyval float)) :
  forall acc, NoDup l.*1 ->
  foldl (put_latest device_id ts) acc l !! (device_id, k) =
    match ((list_to_map l : gmap string (pyval float)) !! k ≫= numeric_value
           : option float) with
    | Some x => Some (ts, x)
    | None => acc !! (device_id, k)
    end.
Proof.
  induction l as [|[k0 v0] l IH]; intros acc Hnd.
  - simpl. by rewrite lookup_empty.
  - apply NoDup_cons in Hnd as [Hk0 Hnd]. cbn [foldl].
    rewrite (IH _ Hnd). cbn [list_to_map foldr].
    destruct (decide (k = k0)) as [->|Hne].
    + rewrite lookup_insert_eq.
      rewrite (not_elem_of_list_to_map_1 l k0 Hk0). simpl.
      unfold put_latest. simpl.
      destruct (numeric_value v0); [by rewrite lookup_insert_eq|done].
    + rewrite lookup_insert_ne by done.
      destruct (list_to_map l !! k ≫= numeric_value); [done|].
      unfold put_latest. simpl.
      destruct (numeric_value v0); [|done].
      rewrite lookup_insert_ne by congruence. done.
Qed.


(** The latest rows of a device after its measurements were written over
    [old]: the numeric values of the map, and the older rows under the other
    names. *)
Lemma latest_rows_written device_id ts m c c' :
  latest_data c' = foldl (put_latest device_id ts) (latest_data c) (map_to_list m) ->
  latest_rows device_id c' = numeric_subset m ∪ latest_rows device_id c.
Proof.
  intros Hl. apply map_eq. intros k.
  rewrite lookup_union, !latest_rows_lookup, Hl.
  rewrite foldl_put_latest by apply NoDup_fst_map_to_list.
  rewrite list_to_map_to_list.
  unfold numeric_subset. rewrite lookup_omap.
  destruct (m !! k ≫= numeric_value) as [x|]; simpl.
  - by destruct (latest_data c !! (device_id, k)).
  - by destruct (latest_data c !! (device_id, k)).
Qed.

(** The body of the loop of [write_telemetry_with_user]. *)
Definition user_row (user_id ts device_id : Z) (row : string * pyval float)
  : M unit :=
  let '(measurement_name, v) := row in
  if negb (is_numeric v) then ret tt
  else
    numeric_value <- to_float v ;;
    insert_user_data user_id ts device_id measurement_name numeric_value.

Lemma user_loop user_id ts device_id rows : forall w,
  cass_healthy w -> convertible rows ->
  exists w',
    for_each rows (user_row user_id ts device_id) w = (Ret tt, w')
    /\ cass_healthy w' /\ redis w' = redis w /\ clock w' = clock w
    /\ latest_data (cass w') = latest_data (cass w).
Proof.
  induction rows as [|[k v] rows IH]; intros w Hw Hconv.
  - exists w. done.
  - apply Forall_cons in Hconv as [Hv Hconv]. simpl in Hv.
    assert (exists w1, user_row user_id ts device_id (k, v) w = (Ret tt, w1)
              /\ cass_healthy w1 /\ redis w1 = redis w /\ clock w1 = clock w
              /\ latest_data (cass w1) = latest_data (cass w))
      as (w1 & E1 & Hh1 & Hr1 & Hc1 & Hl1).
    { unfold user_row. destruct (is_numeric v) eqn:Hn; cbn [negb].
      - destruct (Hv eq_refl) as [x Hx].
        assert (Hf : to_float v w = (Ret x, w)).
        { destruct v; try done; simpl in *; [by rewrite Hx|unfold ret; congruence]. }
        rewrite (bind_eq _ _ _ _ _ Hf).
        unfold insert_user_data. rewrite session_execute_ok by done.
        eexists. split; [reflexivity|]. done.
      - exists w. done. }
    destruct (IH w1 Hh1 Hconv) as (w' & E & Hh & Hr & Hc & Hl).
    exists w'. cbn [for_each].
    rewrite (bind_eq _ _ _ _ _ E1), E. split_and!; try done; try congruence.
Qed.

(** A write of a non-empty map on a healthy session. *)
Lemma write_telemetry_with_user_ok device_id user_id m ts w :
  device_id <> 0 -> m <> ∅ -> cass_healthy w -> convertible (map_to_list m) ->
  exists w',
    write_telemetry_with_user (Some device_id) user_id (PDict m) (Some ts) w
      = (Ret true, w')
    /\ cass_healthy w' /\ redis w' = redis w /\ clock w' = clock w
    /\ latest_rows device_id (cass w')
         = numeric_subset m ∪ latest_rows device_id (cass w).
Proof.
  intros Hd Hm Hw Hconv.
  destruct (write_loop device_id ts ∅ (map_to_list m) w Hw Hconv)
    as (w1 & E1 & Hh1 & Hr1 & Hc1 & Hl1).
  destruct (user_loop user_id ts device_id (map_to_list m) w1 Hh1 Hconv)
    as (w2 & E2 & Hh2 & Hr2 & Hc2 & Hl2).
  exists w2. split_and!; try done; try congruence.
  - unfold write_telemetry_with_user, write_telemetry.
    assert (Hnd : no_device (Some device_id) || negb (truthy (PDict m)) = false).
    { simpl. destruct (Z.eqb_spec device_id 0); [done|]. simpl.
      by rewrite bool_decide_eq_true_2. }
    rewrite Hnd.
    erewrite bind_eq; last first.
    { unfold bind at 1. unfold time_time. cbn [default].
      apply try_ret_eq. unfold items.
      erewrite bind_eq by reflexivity.
      erewrite bind_eq by apply E1. reflexivity. }
    cbn [negb]. unfold bind at 1. unfold time_time. cbn [default].
    apply try_ret_eq. unfold items.
    erewrite bind_eq by reflexivity.
    erewrite bind_eq by apply E2. reflexivity.
  - rewrite <- (latest_rows_written device_id ts m (cass w) (cass w2)); [done|].
    congruence.
Qed.

(** *** The cache side *)

Definition latest_key (device_id : Z) : string :=
  "telemetry:latest:" +:+ str_of_int device_id.

(** [w'] differs from [w] by commands that left the key [K] alone. *)
Definition framed (K : string) (w w' : world) : Prop :=
  RateLimitFacts.healthy w' /\ clock w' = clock w /\ cass w' = cass w
  /\ keyspace (srv (redis w')) !! K = keyspace (srv (redis w)) !! K.



Lemma client_call_framed {A} K (cmd : Z -> server -> reply A) w :
  RateLimitFacts.healthy w ->
  (forall now s, keyspace (cmd now s).2 !! K = keyspace s !! K) ->
  framed K w (client_call cmd w).2.
Proof.
  intros [Hc Hf] Hcmd. rewrite client_call_ok by done. simpl.
  split_and!; try done. apply Hcmd.
Qed.

Lemma store_other K k e s : K <> k -> keyspace (Store.store k e s) !! K = keyspace s !! K.
Proof. intros Hne. simpl. by rewrite lookup_insert_ne. Qed.


Lemma update_last_seen_framed K device_id w :
  RateLimitFacts.healthy w -> K <> "device:lastseen:" +:+ str_of_int device_id ->
  framed K w (RedisCacheService.update_last_seen device_id w).2.
Proof.
  intros Hw Hne. unfold RedisCacheService.update_last_seen.
  unfold try_except, bind, time_time.
  match goal with |- context [client_call ?c w] =>
    pose proof (client_call_framed K c w Hw) as Hfr;
    destruct (client_call c w) as [[a|e] w1] end; simpl in *;
    apply Hfr; intros now s; by apply store_other.
Qed.




Lemma find_framed K w w' :
  framed K w w' ->
  find (clock w') K (srv (redis w')) = find (clock w) K (srv (redis w)).
Proof. intros (_ & Hc & _ & Hk). unfold find. by rewrite Hk, Hc. Qed.

Lemma healthy_eta w :
  RateLimitFacts.healthy w ->
  set_redis {| connected := true; faults := []; srv := srv (redis w) |} w = w.
Proof.
  intros [Hc Hf]. unfold set_redis. rewrite <- Hc, <- Hf, redis_eta.
  apply world_eta.
Qed.

Lemma redis_get_latest device_id w :
  RateLimitFacts.healthy w ->
  RedisCacheService.get_latest_telemetry device_id w =
    (Ret match find (clock w) (latest_key device_id) (srv (redis w)) with
         | None => None
         | Some {| value := RHash h |} =>
             if decide (h = ∅) then None else RedisCacheService.floats_of h
         | Some _ => None
         end, w).
Proof.
  intros Hw. unfold RedisCacheService.get_latest_telemetry.
  fold (latest_key device_id).
  assert (E : client_call (fun now => HGETALL now (latest_key device_id)) w
              = ((HGETALL (clock w) (latest_key device_id) (srv (redis w))).1, w)).
  { rewrite client_call_ok by apply Hw. f_equal.
    replace (HGETALL (clock w) (latest_key device_id) (srv (redis w))).2
      with (srv (redis w)); [by apply healthy_eta|].
    unfold HGETALL.
    by destruct (find (clock w) (latest_key device_id) (srv (redis w)))
      as [[[s|h|l|z] dl]|]. }
  unfold HGETALL in E.
  destruct (find (clock w) (latest_key device_id) (srv (redis w)))
    as [[[s|h|l|z] dl]|]; cbn [fst snd] in E.
  - erewrite try_raise_eq by (erewrite bind_raise_eq by apply E; reflexivity).
    done.
  - destruct (decide (h = ∅)) as [Hh|Hh].
    + apply try_ret_eq. erewrite bind_eq by apply E.
      by rewrite decide_True.
    + destruct (RedisCacheService.floats_of h) as [f|] eqn:Ef.
      * apply try_ret_eq. erewrite bind_eq by apply E.
        rewrite decide_False by done. unfold of_option. rewrite Ef.
        erewrite bind_eq by reflexivity. done.
      * erewrite try_raise_eq; [reflexivity|].
        erewrite bind_eq by apply E.
        rewrite decide_False by done. unfold of_option. rewrite Ef.
        erewrite bind_raise_eq by reflexivity. done.
  - erewrite try_raise_eq by (erewrite bind_raise_eq by apply E; reflexivity).
    done.
  - erewrite try_raise_eq by (erewrite bind_raise_eq by apply E; reflexivity).
    done.
  - apply try_ret_eq. erewrite bind_eq by apply E. by rewrite decide_True.
Qed.

Lemma cass_get_latest device_id w :
  cass_healthy w ->
  exists w',
    CassandraTelemetryService.get_latest_telemetry device_id w =
      (Ret (some_data (Some (latest_rows device_id (cass w)))), w')
    /\ redis w' = redis w /\ clock w' = clock w.
Proof.
  intros Hw. unfold CassandraTelemetryService.get_latest_telemetry.
  unfold try_except, bind. rewrite session_execute_ok by done.
  cbn [fst snd some_data].
  destruct (decide (latest_rows device_id (cass w) = ∅)); eexists; done.
Qed.

(** *** What the cache gives back *)



End LatestFacts.

End LatestFacts.

(** C2 at its failing input.  A device without history submits a
    temperature and the string ["42"] under [code].  The submission is stored
    (201) and the read of the latest values that follows at once is answered
    200 with [code = 42.0] next to the temperature, while the numeric subset
    of the submitted map is the temperature alone: the string value is not
    excluded.  With the string ["ok"] in its place the same two requests
    return the numeric subset. *)
Theorem numeric_text_is_returned :
  let m := <["temperature" := PInt 23]> (<["code" := PStr "42"]> ∅) in
  let req := Examples.submission (<["data" := PDict m]> ∅) in
  let stored := Routes.store_telemetry req Examples.w0 in
  let read := Routes.get_device_latest_telemetry req 7 stored.2 in
  let m' := <["temperature" := PInt 23]> (<["code" := PStr "ok"]> ∅) in
  let req' := Examples.submission (<["data" := PDict m']> ∅) in
  let read' := Routes.get_device_latest_telemetry req' 7
                 (Routes.store_telemetry req' Examples.w0).2 in
  Routes.status_of stored.1 = Some 201
  /\ Routes.status_of read.1 = Some 200
  /\ numeric_subset m = {[ "temperature" := 23 ]}
  /\ Routes.latest_of read.1
     = Some (<["temperature" := 23]> (<["code" := 42]> ∅))
  /\ Routes.latest_of read'.1 = Some (numeric_subset m').
Proof. cbv zeta. split_and!; vm_compute; reflexivity. Qed.

(** C5 at its failing input.  The submission carries a temperature and the
    string ["42"] under [code].  It is stored (201); the time-series tables
    hold a row for the temperature and none for [code]; the cache holds the
    field [code] with the text 42, and the read of the latest values answers
    [code = 42.0], a value that was never written to the store. *)
Theorem snapshot_holds_unwritten_value :
  let req := Examples.submission
               (<["data" := PDict (<["temperature" := PInt 23]>
                                  (<["code" := PStr "42"]> ∅))]> ∅) in
  let stored := Routes.store_telemetry req Examples.w0 in
  let read := Routes.get_device_latest_telemetry req 7 stored.2 in
  Routes.status_of stored.1 = Some 201
  /\ CassandraTelemetryService.latest_rows 7 (cass stored.2)
     = {[ "temperature" := 23 ]}
  /\ device_data (cass stored.2) !! (7, 1000, "code") = None
  /\ match find 1000 "telemetry:latest:7" (srv (redis stored.2)) with
     | Some {| value := RHash h |} => h !! "code"
     | _ => None
     end = Some "42"
  /\ Routes.latest_of read.1
     = Some (<["temperature" := 23]> (<["code" := 42]> ∅)).
Proof. cbv zeta. split_and!; vm_compute; reflexivity. Qed.

(** * Further properties of the code *)

(** ** Presence: marking, expiry by time, removal *)

Module PresenceMore.
Import RedisCacheService PresenceFacts.

Section PresenceMore.
Context `{PyRuntime}.

(** The presence set as stored: a sorted set without deadline, or no key. *)
Definition online_of (s : server) : option (gmap string Z) :=
  match keyspace s !! "devices:online" with
  | None => Some ∅
  | Some {| value := RZSet z; deadline := None |} => Some z
  | Some _ => None
  end.

Definition online_set (w : world) : option (gmap string Z) :=
  online_of (srv (redis w)).

Lemma online_set_records w z : online_set w = Some z -> records w z.
Proof.
  unfold online_set, online_of, records, find.
  destruct (keyspace (srv (redis w)) !! "devices:online")
    as [[[s|h|l|z'] [dl|]]|]; try done; by intros [= <-].
Qed.

Lemma ZADD_online now member score s z :
  online_of s = Some z ->
  exists n,
    ZADD now "devices:online" {[ member := score ]} s
      = (Ret n, Store.store "devices:online"
                  {| value := RZSet (<[member := score]> z); deadline := None |} s).
Proof.
  unfold online_of, ZADD, find. intros Hz.
  destruct (keyspace s !! "devices:online") as [[[s'|h|l|z'] [dl|]]|];
    try done; injection Hz as <-; simpl; eexists; repeat f_equal;
    first [done | by rewrite insert_union_singleton_l | by rewrite insert_empty].
Qed.

(** [set_device_online] records the current time under the device. *)
Lemma set_device_online_records device_id w z :
  RateLimitFacts.healthy w -> online_set w = Some z ->
  exists w',
    set_device_online device_id w = (Ret true, w')
    /\ RateLimitFacts.healthy w' /\ clock w' = clock w
    /\ online_set w' = Some (<[str_of_int device_id := clock w]> z).
Proof.
  intros Hw Hz.
  destruct (ZADD_online (clock w) (str_of_int device_id) (clock w) _ z Hz)
    as (n & En).
  set (s1 := Store.store "devices:online"
               {| value := RZSet (<[str_of_int device_id := clock w]> z);
                  deadline := None |} (srv (redis w))) in *.
  set (w1 := set_redis {| connected := true; faults := []; srv := s1 |} w).
  assert (E1 : client_call (fun now =>
                 ZADD now "devices:online" {[ str_of_int device_id := clock w ]}) w
               = (Ret n, w1)).
  { rewrite client_call_ok by apply Hw. by rewrite En. }
  assert (Hw1 : RateLimitFacts.healthy w1) by done.
  destruct (CacheLayerFacts.perform_returns (op_update_last_seen device_id) w1)
    as (b & w2 & E2). simpl in E2.
  pose proof (LatestFacts.update_last_seen_framed "devices:online" device_id w1
                Hw1 ltac:(done)) as F.
  rewrite E2 in F. simpl in F. destruct F as (Hh & Hc & _ & Hk).
  exists w2. split_and!; try done.
  - unfold set_device_online. apply try_ret_eq.
    unfold bind at 1. unfold time_time.
    erewrite bind_eq by apply E1. erewrite bind_eq by apply E2. done.
  - unfold online_set, online_of. rewrite Hk. unfold w1, s1. simpl.
    by rewrite lookup_insert_eq.
Qed.

End PresenceMore.

(** A device marked online while the clock is not 0 is online for the next
    300 seconds and offline from then on, without any call to
    [set_device_offline]. *)
Theorem presence_window `{PyRuntime} device_id w z delay :
  RateLimitFacts.healthy w -> online_set w = Some z ->
  clock w <> 0 -> 0 <= delay ->
  (set_device_online device_id w).1 = Ret true
  /\ (is_device_online device_id (sleep delay (set_device_online device_id w).2)).1
     = Ret (delay <? 300).
Proof.
  intros Hw Hz Hclock Hd.
  destruct (set_device_online_records device_id w z Hw Hz)
    as (w' & E & Hh & Hc & Hs).
  rewrite E. split; [done|]. simpl.
  assert (Hr : records (sleep delay w') (<[str_of_int device_id := clock w]> z)).
  { by apply online_set_records. }
  rewrite (is_device_online_eval device_id (sleep delay w') _ Hh Hr). simpl.
  rewrite lookup_insert_eq.
  destruct (Z.eqb_spec (clock w) 0); [done|]. simpl.
  do 2 f_equal. lia.
Qed.

Lemma presence_window_witness :
  (set_device_online 7 (Reference.fresh_world 1000 [])).1 = Ret true
  /\ (is_device_online 7
        (sleep 299 (set_device_online 7 (Reference.fresh_world 1000 [])).2)).1
     = Ret (299 <? 300).
Proof. by apply (presence_window 7 _ ∅ 299). Defined.

End PresenceMore.

(** ** Presence is derived on read (C9) *)

Module PresenceDerived.
Import RedisCacheService PresenceFacts PresenceMore LatestFacts.

Section PresenceDerived.
Context `{PyRuntime}.







End PresenceDerived.



End PresenceDerived.

(** ** Presence: the list of online devices *)

Module OnlineList.
Import RedisCacheService PresenceFacts.

#[export] Instance str_of_int_inj : Inj (=) (=) str_of_int.
Proof.
  intros a b Hab.
  pose proof (PyFacts.int_of_str_of_int a) as Ha.
  rewrite Hab, PyFacts.int_of_str_of_int in Ha. congruence.
Qed.

Section OnlineList.
Context `{PyRuntime}.

(** The members a range query returns. *)
Lemma range_members (z : gmap string Z) lo hi s :
  s ∈ (merge_sort zorder (filter (fun kv : string * Z => lo <= kv.2 <= hi)
                            (map_to_list z))).*1
  <-> exists sc, z !! s = Some sc /\ lo <= sc <= hi.
Proof.
  rewrite list_elem_of_fmap. split.
  - intros ([s' sc] & -> & Hin).
    rewrite merge_sort_Permutation in Hin.
    apply list_elem_of_filter in Hin as [Hp Hin].
    apply elem_of_map_to_list in Hin. eauto.
  - intros (sc & Hz & Hp). exists (s, sc). split; [done|].
    rewrite merge_sort_Permutation.
    apply list_elem_of_filter. split; [done|]. by apply elem_of_map_to_list.
Qed.

Lemma mapM_elem_of {A B} (f : A -> option B) l l' :
  mapM f l = Some l' -> forall b, b ∈ l' <-> exists a, a ∈ l /\ f a = Some b.
Proof.
  rewrite mapM_Some.
  induction 1 as [|a b l l' Hab Hl IH]; intros b0.
  - split; [by intros ?%elem_of_nil|]. by intros (a & ?%elem_of_nil & _).
  - rewrite elem_of_cons, IH. split.
    + intros [->|(a0 & Ha0 & HR)].
      * exists a. split; [by left|done].
      * exists a0. split; [by right|done].
    + intros (a0 & [->|Ha0]%elem_of_cons & HR).
      * left. congruence.
      * right. eauto.
Qed.

(** On a reachable cache whose presence set holds device ids [p], the list
    of [get_online_devices] has exactly the devices whose score lies in
    [now - 300, now], both ends included. *)
Lemma get_online_devices_members (p : gmap Z Z) w :
  RateLimitFacts.healthy w -> records w (kmap str_of_int p) ->
  exists l,
    get_online_devices w = (Ret l, w)
    /\ forall d, d ∈ l <->
         exists sc, p !! d = Some sc /\ clock w - 300 <= sc <= clock w.
Proof.
  intros Hw Hrec. unfold records in Hrec.
  set (z := kmap str_of_int p : gmap string Z) in *.
  set (names := (merge_sort zorder
                   (filter (fun kv : string * Z => clock w - 300 <= kv.2 <= clock w)
                      (map_to_list z))).*1).
  assert (Hnames : forall s, s ∈ names ->
            exists d sc, s = str_of_int d /\ p !! d = Some sc
                         /\ clock w - 300 <= sc <= clock w).
  { intros s (sc & Hz & Hp)%range_members.
    apply lookup_kmap_Some in Hz as (d & -> & Hd); [|apply _]. eauto. }
  assert (Hall : is_Some (mapM int_of_str names)).
  { apply mapM_is_Some, Forall_forall. intros s Hs.
    destruct (Hnames s Hs) as (d & sc & -> & _). simpl.
    rewrite PyFacts.int_of_str_of_int. eauto. }
  destruct Hall as [l Hl]. exists l. split.
  - assert (E : client_call (fun t =>
                  ZRANGEBYSCORE t "devices:online" (clock w - 300) (clock w)) w
                = (Ret (if decide (z = ∅) then [] else names), w)
                  \/ client_call (fun t =>
                  ZRANGEBYSCORE t "devices:online" (clock w - 300) (clock w)) w
                = (Ret names, w)).
    { rewrite client_call_ok by apply Hw. unfold ZRANGEBYSCORE.
      destruct (find (clock w) "devices:online" (srv (redis w)))
        as [[v dl]|]; simpl in *.
      - subst v. right. simpl. f_equal. by apply LatestFacts.healthy_eta.
      - left. rewrite decide_True by done. f_equal.
        by apply LatestFacts.healthy_eta. }
    assert (E' : client_call (fun t =>
                  ZRANGEBYSCORE t "devices:online" (clock w - 300) (clock w)) w
                = (Ret names, w)).
    { destruct E as [E|E]; [|done]. rewrite E. do 2 f_equal.
      destruct (decide (z = ∅)) as [Hz|Hz]; [|done].
      unfold names. rewrite Hz, map_to_list_empty. done. }
    unfold get_online_devices. apply try_ret_eq.
    unfold bind at 1. unfold time_time.
    erewrite bind_eq by apply E'. unfold of_option. by rewrite Hl.
  - intros d. rewrite (mapM_elem_of _ _ _ Hl). split.
    + intros (s & Hs & Hi).
      destruct (Hnames s Hs) as (d' & sc & -> & Hd & Hp).
      rewrite PyFacts.int_of_str_of_int in Hi. injection Hi as <-. eauto.
    + intros (sc & Hd & Hp). exists (str_of_int d). split.
      * apply range_members. exists sc. split; [|done].
        change ((kmap str_of_int p : gmap string Z) !! str_of_int d = Some sc).
        rewrite (lookup_kmap str_of_int). exact Hd.
      * apply PyFacts.int_of_str_of_int.
Qed.

End OnlineList.

(** The two readings of presence agree on every device whose recorded score
    is not 0 and lies strictly inside the window or outside it: the device is
    listed by [get_online_devices] exactly when [is_device_online] says
    [True].  (At the score [now - 300], at the score 0 and at a score in the
    future they differ.) *)
Theorem presence_readings_agree `{PyRuntime} (p : gmap Z Z) w d :
  RateLimitFacts.healthy w -> records w (kmap str_of_int p) ->
  p !! d <> Some 0 -> p !! d <> Some (clock w - 300) ->
  (forall sc, p !! d = Some sc -> sc <= clock w) ->
  exists l,
    (get_online_devices w).1 = Ret l
    /\ (d ∈ l <-> (is_device_online d w).1 = Ret true).
Proof.
  intros Hw Hrec Hnz Hnb Hpast.
  destruct (get_online_devices_members p w Hw Hrec) as (l & E & Hl).
  exists l. rewrite E. split; [done|].
  rewrite (is_device_online_eval d w _ Hw Hrec). simpl.
  rewrite (lookup_kmap str_of_int), Hl.
  destruct (p !! d) as [sc|] eqn:Hd.
  - specialize (Hpast sc eq_refl).
    destruct (Z.eqb_spec sc 0) as [->|Hsc]; [done|]. simpl.
    destruct (Z.ltb_spec (clock w - sc) 300).
    + split; [done|]. intros _. exists sc. split; [done|lia].
    + split; [|done]. intros (sc' & [= <-] & Hp).
      assert (sc <> clock w - 300) by congruence. lia.
  - split; [|done]. by intros (sc & ? & _).
Qed.

Lemma presence_readings_agree_witness :
  let w := sleep 100 (set_device_online 7 (Reference.fresh_world 1000 [])).2 in
  exists l,
    (get_online_devices w).1 = Ret l
    /\ (7 ∈ l <-> (is_device_online 7 w).1 = Ret true).
Proof.
  apply (presence_readings_agree {[ 7 := 1000 ]} _ 7).
  - done.
  - vm_compute. done.
  - by rewrite lookup_singleton_eq.
  - rewrite lookup_singleton_eq. simpl. done.
  - intros sc. rewrite lookup_singleton_eq. intros [= <-].
    vm_compute. discriminate.
Defined.

End OnlineList.

(** ** Time ranges *)

Module TimeRange.
Import CassandraTelemetryService.

(** The seconds of one unit of a relative time range. *)
Definition unit_seconds (c : ascii) : option Z :=
  if Ascii.eqb c "h" then Some 3600
  else if Ascii.eqb c "d" then Some 86400
  else if Ascii.eqb c "w" then Some 604800
  else if Ascii.eqb c "m" then Some 60
  else None.

(** The instants a [datetime] can hold, in seconds. *)
Definition representable (t : Z) : Prop :=
  -62135596800 <= t <= 253402300799.

Section TimeRange.
Context `{PyRuntime}.

Lemma endswith_char_last c c' s :
  endswith_char c (s +:+ String c' "") = Ascii.eqb c' c.
Proof.
  induction s as [|a s IH]; [done|].
  change (endswith_char c (String a (s +:+ String c' "")) = Ascii.eqb c' c).
  cbn [endswith_char]. rewrite IH. by destruct s.
Qed.

Lemma drop_last_app s c : drop_last (s +:+ String c "") = s.
Proof.
  induction s as [|a s IH]; [done|].
  change (drop_last (String a (s +:+ String c "")) = String a s).
  cbn [drop_last]. rewrite IH. by destruct s.
Qed.

Lemma timedelta_ok n :
  Z.abs (n `div` 86400) <= 999999999 -> forall w, timedelta n w = (Ret n, w).
Proof.
  intros Hn w. unfold timedelta.
  destruct (Z.leb_spec (Z.abs (n `div` 86400)) 999999999); [done|lia].
Qed.

Lemma datetime_sub_ok t d :
  representable (t - d) -> forall w, datetime_sub t d w = (Ret (t - d), w).
Proof.
  intros [H1 H2] w. unfold datetime_sub.
  destruct (Z.leb_spec (-62135596800) (t - d)); [|lia].
  destruct (Z.leb_spec (t - d) 253402300799); [done|lia].
Qed.

End TimeRange.

(** A relative time range [-<n><unit>] with a unit among h, d, w, m and the
    count written as Python writes integers is the current time minus that
    many units, as long as the result is an instant a [datetime] can hold. *)
Theorem parse_relative `{PyRuntime} c u n w :
  unit_seconds c = Some u ->
  Z.abs ((n * u) `div` 86400) <= 999999999 ->
  representable (clock w - n * u) ->
  _parse_time_range (String "-" (str_of_int n +:+ String c "")) w
    = (Ret (clock w - n * u), w).
Proof.
  intros Hu Hn Hr. unfold _parse_time_range.
  unfold bind at 1. unfold time_time.
  change (negb (RedisCacheService.nonempty
                  (String "-" (str_of_int n +:+ String c "")))) with false.
  assert (String.eqb (String "-" (str_of_int n +:+ String c "")) "now" = false)
    as -> by done.
  cbn [orb]. cbv iota.
  rewrite !endswith_char_last, drop_last_app, PyFacts.int_of_str_of_int.
  unfold unit_seconds in Hu.
  destruct (Ascii.eqb c "h") eqn:Eh.
  { injection Hu as <-. unfold of_option.
    erewrite bind_eq by reflexivity.
    erewrite bind_eq by (by apply timedelta_ok). by apply datetime_sub_ok. }
  destruct (Ascii.eqb c "d") eqn:Ed.
  { injection Hu as <-. unfold of_option.
    erewrite bind_eq by reflexivity.
    erewrite bind_eq by (by apply timedelta_ok). by apply datetime_sub_ok. }
  destruct (Ascii.eqb c "w") eqn:Ew.
  { injection Hu as <-. unfold of_option.
    erewrite bind_eq by reflexivity.
    erewrite bind_eq by (by apply timedelta_ok). by apply datetime_sub_ok. }
  destruct (Ascii.eqb c "m") eqn:Em; [|done].
  injection Hu as <-. unfold of_option.
  erewrite bind_eq by reflexivity.
  erewrite bind_eq by (by apply timedelta_ok). by apply datetime_sub_ok.
Qed.

Lemma parse_relative_witness :
  _parse_time_range "-7d" (Reference.fresh_world 1704067200 [])
    = (Ret (1704067200 - 7 * 86400), Reference.fresh_world 1704067200 []).
Proof.
  apply (parse_relative "d" 86400 7).
  - done.
  - vm_compute. discriminate.
  - split; vm_compute; discriminate.
Defined.

(** The empty string and [now] are the current time.  Any other string that
    does not start with [-] is handed to [fromisoformat] with every [Z]
    replaced by [+00:00]: what it accepts is the answer, what it refuses is
    answered by the default of one hour ago. *)
Theorem parse_absolute `{PyRuntime} w :
  _parse_time_range "" w = (Ret (clock w), w)
  /\ _parse_time_range "now" w = (Ret (clock w), w)
  /\ (forall c s,
        c <> "-"%char -> String c s <> "now" ->
        _parse_time_range (String c s) w =
          match fromisoformat (replace_char "Z" "+00:00" (String c s)) with
          | Some t => (Ret t, w)
          | None =>
              if (-62135596800 <=? clock w - 3600) && (clock w - 3600 <=? 253402300799)
              then (Ret (clock w - 3600), w)
              else (Raise OverflowError, w)
          end).
Proof.
  split_and!; [done|done|].
  intros c s Hc Hnow. unfold _parse_time_range.
  unfold bind at 1. unfold time_time.
  change (negb (RedisCacheService.nonempty (String c s))) with false.
  destruct (String.eqb_spec (String c s) "now") as [|_]; [done|].
  cbn [orb]. cbv iota.
  assert (Htry :
    try_except
      (of_option ValueError (fromisoformat (replace_char "Z" "+00:00" (String c s))))
      (fun _ => d <- timedelta (1 * 3600) ;; datetime_sub (clock w) d) w =
    match fromisoformat (replace_char "Z" "+00:00" (String c s)) with
    | Some t => (Ret t, w)
    | None =>
        if (-62135596800 <=? clock w - 3600) && (clock w - 3600 <=? 253402300799)
        then (Ret (clock w - 3600), w)
        else (Raise OverflowError, w)
    end).
  { destruct (fromisoformat (replace_char "Z" "+00:00" (String c s))); [done|].
    unfold try_except, of_option, raise, bind, timedelta, datetime_sub, ret.
    simpl. by destruct (_ && _). }
  destruct (Ascii.eqb_spec c "-") as [|_]; [done|].
  destruct c as [[] [] [] [] [] [] [] []]; try exact Htry; done.
Qed.

Lemma parse_absolute_witness :
  (_parse_time_range "yesterday" (Reference.fresh_world 1704067200 [])).1
    = Ret (1704067200 - 3600).
Proof.
  destruct (parse_absolute (Reference.fresh_world 1704067200 [])) as (_ & _ & Hp).
  rewrite (Hp "y"%char "esterday") by done.
  vm_compute. reflexivity.
Defined.

End TimeRange.

(** ** Presence: removal *)

Module PresenceOffline.
Import RedisCacheService PresenceFacts PresenceMore.

Section PresenceOffline.
Context `{PyRuntime}.

Lemma ZREM_online now member s z :
  online_of s = Some z ->
  exists n s',
    ZREM now "devices:online" member s = (Ret n, s')
    /\ online_of s' = Some (delete member z).
Proof.
  unfold online_of, ZREM, find. intros Hz.
  destruct (keyspace s !! "devices:online") as [[[s'|h|l|z'] [dl|]]|] eqn:Ek;
    try done; injection Hz as <-; cbn [live deadline value].
  - destruct (z' !! member) as [sc|] eqn:Em.
    + destruct (decide (delete member z' = ∅)) as [He|He].
      * do 2 eexists. split; [reflexivity|]. simpl.
        rewrite lookup_delete_eq. by rewrite He.
      * do 2 eexists. split; [reflexivity|]. simpl.
        by rewrite lookup_insert_eq.
    + do 2 eexists. split; [reflexivity|]. rewrite Ek.
      by rewrite delete_id.
  - do 2 eexists. split; [reflexivity|]. rewrite Ek. by rewrite delete_empty.
Qed.

End PresenceOffline.

(** [set_device_offline] removes the record of the device and of no other:
    the device is offline at once and stays so as time passes, and the other
    records are the ones that were there. *)
Theorem offline_removes `{PyRuntime} device_id w z delay :
  RateLimitFacts.healthy w -> online_set w = Some z ->
  (set_device_offline device_id w).1 = Ret true
  /\ online_set (set_device_offline device_id w).2
       = Some (delete (str_of_int device_id) z)
  /\ (is_device_online device_id
        (sleep delay (set_device_offline device_id w).2)).1 = Ret false.
Proof.
  intros Hw Hz.
  destruct (ZREM_online (clock w) (str_of_int device_id) _ z Hz)
    as (n & s' & En & Hs').
  set (w1 := set_redis {| connected := true; faults := []; srv := s' |} w).
  assert (E : set_device_offline device_id w = (Ret true, w1)).
  { unfold set_device_offline. apply try_ret_eq.
    erewrite bind_eq; [reflexivity|].
    rewrite client_call_ok by apply Hw. by rewrite En. }
  rewrite E. cbn [fst snd]. split_and!; [done|done|].
  assert (Hr : records (sleep delay w1) (delete (str_of_int device_id) z)).
  { by apply online_set_records. }
  rewrite (is_device_online_eval device_id (sleep delay w1) _ ltac:(done) Hr).
  cbn [fst]. by rewrite lookup_delete_eq.
Qed.

Lemma offline_removes_witness :
  let w := (set_device_online 7 (Reference.fresh_world 1000 [])).2 in
  (set_device_offline 7 w).1 = Ret true
  /\ online_set (set_device_offline 7 w).2 = Some (delete (str_of_int 7) {[ "7" := 1000 ]})
  /\ (is_device_online 7 (sleep 10 (set_device_offline 7 w).2)).1 = Ret false.
Proof.
  apply (offline_removes 7 _ {[ "7" := 1000 ]} 10).
  - done.
  - vm_compute. done.
Defined.

End PresenceOffline.

(** ** The cached snapshot of latest values *)

Module SnapshotCache.
Import RedisCacheService LatestFacts.

Section SnapshotCache.
Context `{PyRuntime}.

(** The fields of the snapshot a reader sees now: none when the key is
    absent or its time is over. *)
Definition snapshot (device_id : Z) (w : world) : option (gmap string string) :=
  match find (clock w) (latest_key device_id) (srv (redis w)) with
  | None => Some ∅
  | Some {| value := RHash h |} => Some h
  | Some _ => None
  end.

(** Every value of the map is a number that fits a [float]. *)
Definition numeric_map (m : gmap string (pyval float)) : Prop :=
  forall k v, m !! k = Some v -> is_Some (numeric_value v).

Lemma find_live now k s e : find now k s = Some e -> live now e = true.
Proof.
  unfold find. destruct (keyspace s !! k) as [e0|]; [|done].
  destruct (live now e0) eqn:El; [|done]. by intros [= <-].
Qed.

Lemma numeric_encodes v x :
  numeric_value v = Some x -> encode_value v ≫= float_of_str = Some x.
Proof.
  destruct v as [|b|z|y|s|l|d]; simpl; try done.
  - apply float_of_int_str.
  - intros [= <-]. apply float_of_repr.
Qed.

Lemma encode_numeric m :
  m <> ∅ -> numeric_map m -> encode_mapping m = Some (omap encode_value m).
Proof.
  intros Hne Hnum. unfold encode_mapping.
  rewrite decide_False by done. rewrite decide_True; [done|].
  intros k v Hk. destruct (Hnum k v Hk) as [x Hx].
  pose proof (numeric_encodes v x Hx) as He.
  destruct (encode_value v); [eauto|done].
Qed.

Lemma floats_of_Some h old :
  floats_of h = Some old ->
  old = omap float_of_str h /\ map_Forall (fun _ v => is_Some (float_of_str v)) h.
Proof.
  unfold floats_of. destruct (decide (map_Forall _ h)); [|done].
  by intros [= <-].
Qed.

(** The fields of a numeric map, merged over fields that read as floats, read
    as the floats of the map over the older floats. *)
Lemma floats_of_merged m h old :
  numeric_map m -> floats_of h = Some old ->
  floats_of (omap encode_value m ∪ h) = Some (numeric_subset m ∪ old).
Proof.
  intros Hnum [-> Hh]%floats_of_Some. unfold floats_of.
  rewrite decide_True.
  - f_equal. apply map_eq. intros k.
    unfold numeric_subset.
    rewrite lookup_omap, !lookup_union, !lookup_omap.
    destruct (m !! k) as [v|] eqn:Hk; simpl.
    + destruct (Hnum k v Hk) as [x Hx]. rewrite Hx.
      pose proof (numeric_encodes v x Hx) as He.
      destruct (encode_value v) as [s|]; [|done]. simpl in He.
      destruct (h !! k) as [s'|]; simpl; rewrite He; [|done].
      by destruct (float_of_str s').
    + destruct (h !! k) as [s'|]; simpl; [|done].
      by destruct (float_of_str s').
  - intros k s [Hk|[_ Hk]]%lookup_union_Some_raw.
    + rewrite lookup_omap in Hk.
      destruct (m !! k) as [v|] eqn:Hm; [|done]. simpl in Hk.
      destruct (Hnum k v Hm) as [x Hx].
      pose proof (numeric_encodes v x Hx) as He. rewrite Hk in He.
      simpl in He. rewrite He. eauto.
    + by apply (Hh k).
Qed.

Lemma encoded_nonempty m h :
  m <> ∅ -> numeric_map m -> omap encode_value m ∪ h <> ∅.
Proof.
  intros Hne Hnum Hempty.
  destruct (map_choose m Hne) as (k & v & Hk).
  destruct (Hnum k v Hk) as [x Hx].
  pose proof (numeric_encodes v x Hx) as He.
  assert ((omap encode_value m ∪ h) !! k = None) as Hl
    by (by rewrite Hempty, lookup_empty).
  apply lookup_union_None in Hl as [Hl _].
  rewrite lookup_omap, Hk in Hl. simpl in Hl. by rewrite Hl in He.
Qed.

(** HSET followed by EXPIRE on the snapshot key, for a map redis-py
    encodes. *)
Lemma cache_latest_encoded device_id m fields ttl w h :
  RateLimitFacts.healthy w -> snapshot device_id w = Some h ->
  encode_mapping m = Some fields -> 0 < ttl ->
  expire_time_ok (clock w) ttl = true ->
  exists w',
    cache_latest_telemetry device_id m ttl w = (Ret true, w')
    /\ RateLimitFacts.healthy w' /\ clock w' = clock w /\ cass w' = cass w
    /\ keyspace (srv (redis w')) !! latest_key device_id =
         Some {| value := RHash (fields ∪ h);
                 deadline := Some (clock w + ttl) |}
    /\ (forall K', K' <> latest_key device_id ->
          keyspace (srv (redis w')) !! K' = keyspace (srv (redis w)) !! K').
Proof.
  intros Hw Hs Henc Httl Hok. unfold snapshot in Hs.
  unfold cache_latest_telemetry. fold (latest_key device_id).
  rewrite Henc.
  set (K := latest_key device_id) in *.
  assert (exists n dl,
            HSET (clock w) K fields (srv (redis w))
            = (Ret n, Store.store K {| value := RHash (fields ∪ h); deadline := dl |}
                        (srv (redis w)))
            /\ live (clock w) {| value := RHash (fields ∪ h); deadline := dl |}
               = true) as (n & dl & E1 & Hlive).
  { unfold HSET.
    destruct (find (clock w) K (srv (redis w))) as [[[s|h'|l|z] dl]|] eqn:Ef;
      try done; injection Hs as <-.
    - exists (Z.of_nat (size (filter (fun kv => h' !! kv.1 = None) fields))), dl.
      split; [done|]. by apply find_live in Ef.
    - exists (Z.of_nat (size fields)), None.
      split; [by rewrite (right_id_L ∅ (∪))|done]. }
  set (s1 := Store.store K {| value := RHash (fields ∪ h); deadline := dl |}
               (srv (redis w))) in *.
  set (w1 := set_redis {| connected := true; faults := []; srv := s1 |} w).
  assert (E1' : client_call (fun now => HSET now K fields) w = (Ret n, w1)).
  { rewrite client_call_ok by apply Hw. by rewrite E1. }
  assert (Hfind : find (clock w) K s1
                  = Some {| value := RHash (fields ∪ h); deadline := dl |}).
  { unfold find, s1. simpl. rewrite lookup_insert_eq. by rewrite Hlive. }
  set (s2 := Store.store K {| value := RHash (fields ∪ h);
                              deadline := Some (clock w + ttl) |} s1).
  set (w2 := set_redis {| connected := true; faults := []; srv := s2 |} w1).
  assert (E2 : client_call (fun now => EXPIRE now K ttl) w1 = (Ret true, w2)).
  { rewrite client_call_ok by done.
    change (clock w1) with (clock w). change (srv (redis w1)) with s1.
    unfold EXPIRE. rewrite Hok. cbn [negb]. rewrite Hfind.
    destruct (Z.leb_spec ttl 0); [lia|done]. }
  exists w2. split.
  { apply try_ret_eq. erewrite bind_eq by reflexivity.
    erewrite bind_eq by apply E1'. erewrite bind_eq by apply E2. done. }
  split_and!; try done.
  - unfold w2, s2. simpl. by rewrite lookup_insert_eq.
  - intros K' HK'. unfold w2, s2, w1, s1. simpl.
    by rewrite !lookup_insert_ne.
Qed.

Lemma cache_latest_stores device_id m ttl w h :
  RateLimitFacts.healthy w -> snapshot device_id w = Some h ->
  m <> ∅ -> numeric_map m -> 0 < ttl -> expire_time_ok (clock w) ttl = true ->
  exists w',
    cache_latest_telemetry device_id m ttl w = (Ret true, w')
    /\ RateLimitFacts.healthy w' /\ clock w' = clock w /\ cass w' = cass w
    /\ keyspace (srv (redis w')) !! latest_key device_id =
         Some {| value := RHash (omap encode_value m ∪ h);
                 deadline := Some (clock w + ttl) |}
    /\ (forall K', K' <> latest_key device_id ->
          keyspace (srv (redis w')) !! K' = keyspace (srv (redis w)) !! K').
Proof.
  intros Hw Hs Hne Hnum Httl Hok.
  by apply cache_latest_encoded; [| |apply encode_numeric| |].
Qed.

End SnapshotCache.



End SnapshotCache.

(** ** The cached snapshot: what is refused and what is hidden *)

Module SnapshotEdges.
Import RedisCacheService LatestFacts SnapshotCache.

(** A map with a value that is neither a string nor a number, a boolean for
    one, is not cached at all: [cache_latest_telemetry] answers [False]
    before any command is sent, so the server and the connection are as they
    were, reachable or not. *)
Theorem cache_refuses_unencodable `{PyRuntime} device_id m ttl w k v :
  m !! k = Some v -> encode_value v = None ->
  cache_latest_telemetry device_id m ttl w = (Ret false, w).
Proof.
  intros Hk Hv. unfold cache_latest_telemetry.
  assert (encode_mapping m = None) as ->; [|done].
  unfold encode_mapping. destruct (decide (m = ∅)); [done|].
  rewrite decide_False; [done|].
  intros Hall. destruct (Hall k v Hk) as [s Hs]. congruence.
Qed.

Lemma cache_refuses_unencodable_witness :
  cache_latest_telemetry 7
    (<["temperature" := PInt 23]> (<["enabled" := PBool true]> ∅)) 600
    (Reference.fresh_world 1000 [])
  = (Ret false, Reference.fresh_world 1000 []).
Proof.
  apply (cache_refuses_unencodable 7 _ 600 _ "enabled" (PBool true)).
  - done.
  - done.
Defined.

(** One field that does not read as a float hides the whole snapshot: the
    ValueError of the conversion is swallowed and the cache answers [None],
    also for the fields that are numbers. *)
Theorem text_field_hides_snapshot `{PyRuntime} device_id w h k s :
  RateLimitFacts.healthy w -> snapshot device_id w = Some h ->
  h !! k = Some s -> float_of_str s = None ->
  get_latest_telemetry device_id w = (Ret None, w).
Proof.
  intros Hw Hs Hk Hbad. rewrite (redis_get_latest device_id w Hw).
  unfold snapshot in Hs.
  destruct (find (clock w) (latest_key device_id) (srv (redis w)))
    as [[[s'|h'|l|z] dl]|]; try done. injection Hs as ->.
  destruct (decide (h = ∅)); [done|].
  unfold floats_of. rewrite decide_False; [done|].
  intros Hall. destruct (Hall k s Hk) as [x Hx]. congruence.
Qed.

Lemma text_field_hides_snapshot_witness :
  let w := (cache_latest_telemetry 7
              (<["temperature" := PInt 23]> (<["status" := PStr "ok"]> ∅)) 600
              (Reference.fresh_world 1000 [])).2 in
  get_latest_telemetry 7 w = (Ret None, w).
Proof.
  apply (text_field_hides_snapshot 7 _
           (<["temperature" := "23"]> (<["status" := "ok"]> ∅)) "status" "ok").
  - split; vm_compute; reflexivity.
  - vm_compute. reflexivity.
  - vm_compute. reflexivity.
  - vm_compute. reflexivity.
Defined.

End SnapshotEdges.

(** ** Submission: the answers and what a rejected request leaves behind *)

Module SubmitAnswers.
Import Routes.

Section SubmitAnswers.
Context `{PyRuntime}.

(** A computation that leaves the time-series store and the event log as
    they are, whether it returns or raises. *)
Definition quiet {A} (m : M A) : Prop :=
  forall w, cass (m w).2 = cass w /\ mongo (m w).2 = mongo w.

Lemma quiet_ret {A} (a : A) : quiet (ret a).
Proof. done. Qed.

Lemma quiet_raise {A} e : quiet (raise e : M A).
Proof. done. Qed.

Lemma quiet_of_option {A} e (o : option A) : quiet (of_option e o).
Proof. by destruct o. Qed.

Lemma quiet_bind {A B} (m : M A) (k : A -> M B) :
  quiet m -> (forall a, quiet (k a)) -> quiet (bind m k).
Proof.
  intros Hm Hk w. unfold bind. destruct (Hm w) as [Hc Hg].
  destruct (m w) as [[a|e] w1]; simpl in *; [|done].
  destruct (Hk a w1). split; congruence.
Qed.

Lemma quiet_try {A} (body : M A) h :
  quiet body -> (forall e, quiet (h e)) -> quiet (try_except body h).
Proof.
  intros Hm Hk w. unfold try_except. destruct (Hm w) as [Hc Hg].
  destruct (body w) as [[a|e] w1]; simpl in *; [done|].
  destruct (Hk e w1). split; congruence.
Qed.

Lemma quiet_try_only {A} cls (body : M A) h :
  quiet body -> quiet h -> quiet (try_except_only cls body h).
Proof.
  intros Hm Hk w. unfold try_except_only. destruct (Hm w) as [Hc Hg].
  destruct (body w) as [[a|e] w1]; simpl in *; [done|].
  destruct (decide (e = cls)); [|done].
  destruct (Hk w1). split; congruence.
Qed.

Lemma quiet_client_call {A} (cmd : Z -> server -> reply A) : quiet (client_call cmd).
Proof.
  intros w. unfold client_call. destruct (connected (redis w)); [|done].
  destruct (faults (redis w)) as [|[] fs]; try done; by destruct (cmd _ _).
Qed.

Lemma quiet_pg_call {A} (q : postgres -> A * postgres) : quiet (DeviceModel.pg_call q).
Proof.
  intros w. unfold DeviceModel.pg_call.
  destruct (pg_faults (pg w)) as [|[] fs]; try done; by destruct (q _).
Qed.

Ltac quiet_step :=
  first
    [ apply quiet_ret | apply quiet_raise | apply quiet_of_option
    | apply quiet_client_call | apply quiet_pg_call
    | apply quiet_try_only | apply quiet_bind | apply quiet_try
    | match goal with |- quiet (match ?x with _ => _ end) => destruct x end
    | match goal with |- quiet (if ?x then _ else _) => destruct x end ].

Lemma quiet_lookup_device k : quiet (lookup_device k).
Proof.
  unfold lookup_device, RedisCacheService.get_device_by_api_key,
    RedisCacheService.loads_if_present, subscript, DeviceModel.query_get,
    DeviceModel.query_by_api_key, RedisCacheService.cache_api_key.
  repeat (intros; quiet_step).
Qed.

Lemma quiet_dict_get v k d : quiet (dict_get v k d).
Proof. unfold dict_get. repeat (intros; quiet_step). Qed.

Lemma quiet_parse_timestamp v : quiet (parse_timestamp v).
Proof. unfold parse_timestamp. repeat (intros; quiet_step). Qed.

(** The answers of the part of [store_telemetry] that follows the checks. *)
Definition late (c : Z) : Prop := c = 201 \/ c = 500.

(** The answers of the checks. *)
Definition early (c : Z) : Prop := c = 400 \/ c = 401.

Definition answers (S : Z -> Prop) (m : M response) : Prop :=
  forall w, match (m w).1 with Ret r => S r.2 | Raise _ => True end.

Lemma answers_bind {A} S (m : M A) k :
  (forall a, answers S (k a)) -> answers S (bind m k).
Proof.
  intros Hk w. unfold bind. destruct (m w) as [[a|e] w1]; [apply Hk|done].
Qed.

Definition careful (m : M response) : Prop :=
  forall w,
    match (m w).1 with
    | Ret r =>
        late r.2
        \/ (early r.2 /\ cass (m w).2 = cass w /\ mongo (m w).2 = mongo w)
    | Raise _ => True
    end.

Lemma careful_answers m : answers late m -> careful m.
Proof.
  intros Hm w. specialize (Hm w). destruct ((m w).1); [by left|done].
Qed.

Lemma careful_ret r : early r.2 -> careful (ret r).
Proof. intros Hr w. by right. Qed.

Lemma careful_bind {A} (Q : A -> Prop) (m : M A) k :
  quiet m -> (forall w a, (m w).1 = Ret a -> Q a) ->
  (forall a, Q a -> careful (k a)) -> careful (bind m k).
Proof.
  intros Hm HQ Hk w. unfold bind.
  destruct (Hm w) as [Hc Hg]. specialize (HQ w).
  destruct (m w) as [[a|e] w1]; simpl in *; [|done].
  specialize (Hk a (HQ a eq_refl) w1).
  destruct ((k a w1).1); [|done].
  destruct Hk as [Hl|(He & Hc' & Hg')]; [by left|right].
  split_and!; [done|congruence|congruence].
Qed.

Lemma parse_timestamp_answer v w r :
  (parse_timestamp v w).1 = Ret (inl r) -> r.2 = 400.
Proof.
  unfold parse_timestamp. destruct (truthy v); [|done].
  unfold try_except_only, bind, of_option, ret, raise.
  destruct v; try done.
  destruct (endswith_char "Z" s);
    match goal with |- context [fromisoformat ?x] =>
      destruct (fromisoformat x) end; simpl; try done; by intros [= <-].
Qed.

(** No exception leaves [store_telemetry]; its answer is one of the four, and
    an answer of the checks comes with both stores untouched. *)
Lemma store_telemetry_careful req w :
  match (store_telemetry req w).1 with
  | Ret r =>
      late r.2
      \/ (early r.2 /\ cass (store_telemetry req w).2 = cass w
                    /\ mongo (store_telemetry req w).2 = mongo w)
  | Raise _ => False
  end.
Proof.
  unfold store_telemetry.
  match goal with |- context [try_except ?b _] => set (b0 := b) end.
  assert (Hc : careful b0); last first.
  { specialize (Hc w). unfold try_except.
    destruct (b0 w) as [[r|e] w1]; simpl in *; [exact Hc|]. left. by right. }
  unfold b0. clear b0.
  destruct (truthy (json req)); cbn [negb].
  2:{ apply careful_ret. by left. }
  destruct (no_api_key (header_api_key req)).
  { apply careful_ret. by right. }
  apply (careful_bind (fun _ => True)); [apply quiet_lookup_device|done|].
  intros [device|] _; [|apply careful_ret; by right].
  apply (careful_bind (fun _ => True)); [apply quiet_dict_get|done|].
  intros telemetry_data _.
  apply (careful_bind (fun _ => True)); [apply quiet_dict_get|done|].
  intros metadata _.
  apply (careful_bind (fun _ => True)); [apply quiet_dict_get|done|].
  intros timestamp_str _.
  destruct (truthy telemetry_data); cbn [negb].
  2:{ apply careful_ret. by left. }
  apply (careful_bind (fun parsed => match parsed with
                                     | inl r => r.2 = 400
                                     | inr _ => True
                                     end)).
  { apply quiet_parse_timestamp. }
  { intros w' [r|t] Hp; [|done]. by apply (parse_timestamp_answer timestamp_str w'). }
  intros [r|t] Hr.
  { apply careful_ret. by left. }
  apply careful_answers.
  apply answers_bind. intros now.
  apply answers_bind. intros ok.
  apply answers_bind. intros _.
  apply answers_bind. intros _.
  apply answers_bind. intros _.
  intros w'. destruct ok; [by left|by right].
Qed.

End SubmitAnswers.

(** Every submission is answered, with 201, 400, 401 or 500: no exception
    leaves [store_telemetry], whatever the request and the state of the four
    stores. *)
Theorem submission_is_answered `{PyRuntime} req w :
  exists c,
    status_of (store_telemetry req w).1 = Some c
    /\ (c = 201 \/ c = 400 \/ c = 401 \/ c = 500).
Proof.
  pose proof (store_telemetry_careful req w) as Hc.
  destruct ((store_telemetry req w).1) as [[p c]|e]; [|done].
  exists c. split; [done|]. simpl in Hc.
  destruct Hc as [[->| ->]|[[->| ->] _]]; auto.
Qed.

(** A submission answered with 400 or 401 has written nothing to the
    time-series store and has logged no event. *)
Theorem rejected_submission_writes_nothing `{PyRuntime} req w c :
  status_of (store_telemetry req w).1 = Some c -> c = 400 \/ c = 401 ->
  cass (store_telemetry req w).2 = cass w
  /\ mongo (store_telemetry req w).2 = mongo w.
Proof.
  intros Hs Hc.
  pose proof (store_telemetry_careful req w) as Hr.
  destruct ((store_telemetry req w).1) as [[p c']|e]; [|done].
  injection Hs as ->. simpl in Hr.
  destruct Hr as [[->| ->]|[_ Hr]]; [lia|lia|done].
Qed.

Lemma rejected_submission_writes_nothing_witness :
  let req := {| header_api_key := Some "unknown";
                json := PDict Examples.plain_fields |} in
  cass (store_telemetry req Examples.w0).2 = cass Examples.w0
  /\ mongo (store_telemetry req Examples.w0).2 = mongo Examples.w0.
Proof.
  apply (rejected_submission_writes_nothing _ _ 401).
  - vm_compute. reflexivity.
  - by right.
Defined.

End SubmitAnswers.

(** ** The read path: cache first, then the store *)

Module ReadPath.
Import Routes CassandraTelemetryService RedisCacheService LatestFacts SnapshotCache.

Section ReadPath.
Context `{PyRuntime}.

Lemma numeric_map_floats (rows : gmap string float) : numeric_map (PFloat <$> rows).
Proof.
  intros k v Hk. rewrite lookup_fmap in Hk.
  destruct (rows !! k); [|done]. injection Hk as <-. by eexists.
Qed.

Lemma numeric_subset_floats (rows : gmap string float) :
  numeric_subset (PFloat <$> rows) = rows.
Proof.
  apply map_eq. intros k. unfold numeric_subset.
  rewrite lookup_omap, lookup_fmap. by destruct (rows !! k).
Qed.

Lemma snapshot_same d w w' :
  redis w' = redis w -> clock w' = clock w -> snapshot d w' = snapshot d w.
Proof. unfold snapshot. by intros -> ->. Qed.

Lemma healthy_same w w' :
  redis w' = redis w -> RateLimitFacts.healthy w -> RateLimitFacts.healthy w'.
Proof. unfold RateLimitFacts.healthy. by intros ->. Qed.

(** Nothing is cached: the cache answers [None]. *)
Lemma cache_miss d w :
  RateLimitFacts.healthy w -> snapshot d w = Some ∅ ->
  RedisCacheService.get_latest_telemetry d w = (Ret None, w).
Proof.
  intros Hw Hs. rewrite (redis_get_latest d w Hw). unfold snapshot in Hs.
  destruct (find (clock w) (latest_key d) (srv (redis w)))
    as [[[s|h|l|z] dl]|]; try done.
  injection Hs as ->. by rewrite decide_True.
Qed.

(** A miss that the store answers: the rows are returned and cached. *)
Lemma read_fills_cache d w :
  RateLimitFacts.healthy w -> cass_healthy w -> snapshot d w = Some ∅ ->
  latest_rows d (cass w) <> ∅ -> expire_time_ok (clock w) 600 = true ->
  exists w',
    latest_with_fallback d w = (Ret (Some (latest_rows d (cass w))), w')
    /\ RateLimitFacts.healthy w' /\ clock w' = clock w
    /\ keyspace (srv (redis w')) !! latest_key d =
         Some {| value := RHash (omap encode_value (PFloat <$> latest_rows d (cass w)) ∪ ∅);
                 deadline := Some (clock w + 600) |}.
Proof.
  intros Hw Hcw Hs Hrows Hok. set (rows := latest_rows d (cass w)) in *.
  destruct (cass_get_latest d w Hcw) as (w1 & E1 & Hr1 & Hc1).
  fold rows in E1.
  assert (Hw1 : RateLimitFacts.healthy w1) by (by apply (healthy_same w)).
  assert (Hs1 : snapshot d w1 = Some ∅) by (by rewrite (snapshot_same d w)).
  destruct (cache_latest_stores d (PFloat <$> rows) 600 w1 ∅ Hw1 Hs1)
    as (w2 & E2 & Hw2 & Hc2 & _ & Hk2 & _).
  { intros He. by apply fmap_empty_inv in He. }
  { apply numeric_map_floats. }
  { done. }
  { by rewrite Hc1. }
  exists w2. split_and!; try done; try congruence.
  unfold latest_with_fallback.
  erewrite bind_eq by (by apply cache_miss). cbn [some_data].
  erewrite bind_eq by apply E1. cbn [some_data].
  rewrite decide_False by done. cbn [some_data].
  rewrite decide_False by done.
  erewrite bind_eq by apply E2. done.
Qed.

(** A read that finds the snapshot answers from it. *)
Lemma read_from_cache d w (rows : gmap string float) dl :
  RateLimitFacts.healthy w -> rows <> ∅ ->
  keyspace (srv (redis w)) !! latest_key d =
    Some {| value := RHash (omap encode_value (PFloat <$> rows) ∪ ∅);
            deadline := Some dl |} ->
  clock w < dl ->
  latest_with_fallback d w = (Ret (Some rows), w).
Proof.
  intros Hw Hrows Hk Hdl. unfold latest_with_fallback.
  erewrite bind_eq; last first.
  { rewrite (redis_get_latest d w Hw). unfold find. rewrite Hk.
    cbn [live deadline]. destruct (Z.ltb_spec (clock w) dl); [|lia].
    rewrite decide_False; last first.
    { apply encoded_nonempty; [|apply numeric_map_floats].
      intros He. by apply fmap_empty_inv in He. }
    rewrite (floats_of_merged (PFloat <$> rows) ∅ ∅);
      [|apply numeric_map_floats|done].
    rewrite numeric_subset_floats, (right_id_L ∅ (∪)). reflexivity. }
  cbn [some_data]. by rewrite decide_False.
Qed.

End ReadPath.

(** Read-through.  When the cache has no snapshot of a device and the store
    has latest rows, the read returns the rows and caches them: for the next
    600 seconds the same read returns them again from the cache, whatever
    has become of the store in between, unreachable included.  (The current
    time is one at which the server accepts a lifetime of 600 seconds: the
    deadline fits 64-bit milliseconds.) *)
Theorem read_through_cache `{PyRuntime} d w delay c' :
  RateLimitFacts.healthy w -> cass_healthy w -> snapshot d w = Some ∅ ->
  latest_rows d (cass w) <> ∅ -> 0 <= delay < 600 ->
  expire_time_ok (clock w) 600 = true ->
  (latest_with_fallback d w).1 = Ret (Some (latest_rows d (cass w)))
  /\ (latest_with_fallback d
        (sleep delay (set_cass c' (latest_with_fallback d w).2))).1
     = Ret (Some (latest_rows d (cass w))).
Proof.
  intros Hw Hcw Hs Hrows Hdelay Hok.
  destruct (read_fills_cache d w Hw Hcw Hs Hrows Hok)
    as (w' & E & Hw' & Hc' & Hk').
  rewrite E. cbn [fst snd]. split; [done|].
  rewrite (read_from_cache d (sleep delay (set_cass c' w'))
             (latest_rows d (cass w)) (clock w + 600)); try done.
  simpl. lia.
Qed.

Lemma read_through_cache_witness :
  let w := (CassandraTelemetryService.write_telemetry (Some 7)
              (PDict (<["temperature" := PInt 23]> ∅)) (Some 1000) None
              (Reference.fresh_world 1000 [])).2 in
  let down := {| session := false; cass_faults := []; device_data := ∅;
                 latest_data := ∅; user_data := ∅ |} in
  (latest_with_fallback 7 w).1 = Ret (Some (latest_rows 7 (cass w)))
  /\ (latest_with_fallback 7
        (sleep 599 (set_cass down (latest_with_fallback 7 w).2))).1
     = Ret (Some (latest_rows 7 (cass w))).
Proof.
  apply (read_through_cache 7 _ 599).
  - split; vm_compute; reflexivity.
  - split; vm_compute; reflexivity.
  - vm_compute. reflexivity.
  - intros Hr. apply (f_equal (fun m => m !! "temperature")) in Hr.
    vm_compute in Hr. discriminate Hr.
  - lia.
  - vm_compute. reflexivity.
Defined.

(** No negative caching.  When neither the cache nor the store has latest
    values of the device, the read answers nothing and leaves the cache
    without a snapshot: the next read asks the store again. *)
Theorem no_negative_caching `{PyRuntime} d w :
  RateLimitFacts.healthy w -> cass_healthy w -> snapshot d w = Some ∅ ->
  latest_rows d (cass w) = ∅ ->
  (latest_with_fallback d w).1 = Ret None
  /\ snapshot d (latest_with_fallback d w).2 = Some ∅.
Proof.
  intros Hw Hcw Hs Hrows.
  destruct (cass_get_latest d w Hcw) as (w1 & E1 & Hr1 & Hc1).
  rewrite Hrows in E1.
  assert (E : latest_with_fallback d w = (Ret None, w1)).
  { unfold latest_with_fallback.
    erewrite bind_eq by (by apply cache_miss). cbn [some_data].
    erewrite bind_eq by apply E1. cbn [some_data].
    by rewrite decide_True. }
  rewrite E. split; [done|]. cbn [snd]. by rewrite (snapshot_same d w).
Qed.

Lemma no_negative_caching_witness :
  (latest_with_fallback 7 (Reference.fresh_world 1000 [])).1 = Ret None
  /\ snapshot 7 (latest_with_fallback 7 (Reference.fresh_world 1000 [])).2 = Some ∅.
Proof.
  apply (no_negative_caching 7).
  - split; vm_compute; reflexivity.
  - split; vm_compute; reflexivity.
  - vm_compute. reflexivity.
  - vm_compute. reflexivity.
Defined.

End ReadPath.

(** ** Counters, gauges and lifetimes *)

Module Statistics.
Import RedisCacheService.

Section Statistics.
Context `{PyRuntime}.

Lemma nonempty_str_of_int z : nonempty (str_of_int z) = true.
Proof.
  pose proof (PyFacts.int_of_str_of_int z) as Hz.
  destruct (str_of_int z); [done|done].
Qed.

(** The key holds the text of [c] and never expires. *)
Definition counts (key : string) (c : Z) (w : world) : Prop :=
  keyspace (srv (redis w)) !! key
    = Some {| value := RStr (str_of_int c); deadline := None |}.

Lemma get_counter_counts key c w :
  RateLimitFacts.healthy w -> counts key c w ->
  get_counter key w = (Ret c, w).
Proof.
  intros Hw Hk. unfold get_counter. apply try_ret_eq.
  erewrite bind_eq; last first.
  { rewrite client_call_ok by apply Hw. unfold GET, find. rewrite Hk.
    cbn [live deadline fst snd]. by rewrite LatestFacts.healthy_eta. }
  cbv beta iota. rewrite nonempty_str_of_int.
  by rewrite PyFacts.int_of_str_of_int.
Qed.

Lemma get_counter_absent key w :
  RateLimitFacts.healthy w -> find (clock w) key (srv (redis w)) = None ->
  get_counter key w = (Ret 0, w).
Proof.
  intros Hw Hk. unfold get_counter. apply try_ret_eq.
  erewrite bind_eq; last first.
  { rewrite client_call_ok by apply Hw. unfold GET. rewrite Hk.
    cbn [fst snd]. by rewrite LatestFacts.healthy_eta. }
  done.
Qed.

Lemma increment_absent key w :
  RateLimitFacts.healthy w -> find (clock w) key (srv (redis w)) = None ->
  exists w',
    increment key w = (Ret 1, w')
    /\ RateLimitFacts.healthy w' /\ clock w' = clock w /\ counts key 1 w'.
Proof.
  intros Hw Hk. eexists. split.
  { unfold increment. apply try_ret_eq.
    rewrite client_call_ok by apply Hw. unfold INCR. rewrite Hk. reflexivity. }
  split_and!; try done. unfold counts. simpl. by rewrite lookup_insert_eq.
Qed.

Lemma increment_counts key c w :
  RateLimitFacts.healthy w -> counts key c w -> - 2 ^ 63 <= c -> c + 1 < 2 ^ 63 ->
  exists w',
    increment key w = (Ret (c + 1), w')
    /\ RateLimitFacts.healthy w' /\ clock w' = clock w /\ counts key (c + 1) w'.
Proof.
  intros Hw Hk Hlo Hhi. eexists. split.
  { unfold increment. apply try_ret_eq.
    rewrite client_call_ok by apply Hw. unfold INCR, find. rewrite Hk.
    cbn [live deadline]. rewrite PyFacts.int64_of_str_of_int by lia.
    destruct (Z.ltb_spec (c + 1) (2 ^ 63)); [|lia]. reflexivity. }
  split_and!; try done. unfold counts. simpl. by rewrite lookup_insert_eq.
Qed.

(** [n] calls of [increment], one after the other. *)
Definition increments (key : string) (n : nat) (w : world) : world :=
  Nat.iter n (fun w' => (increment key w').2) w.

Lemma increments_S key n w :
  increments key (S n) w = (increment key (increments key n w)).2.
Proof. done. Qed.

Lemma increments_counts key w :
  RateLimitFacts.healthy w -> find (clock w) key (srv (redis w)) = None ->
  forall n : nat, Z.of_nat n < 2 ^ 63 -> (1 <= n)%nat ->
  RateLimitFacts.healthy (increments key n w)
  /\ clock (increments key n w) = clock w
  /\ counts key (Z.of_nat n) (increments key n w).
Proof.
  intros Hw Hk. induction n as [|n IH]; intros Hn Hpos; [lia|].
  rewrite increments_S.
  destruct n as [|n].
  - change (increments key 0 w) with w.
    destruct (increment_absent key w Hw Hk) as (w' & E & Hh & Hc & Hcnt).
    by rewrite E.
  - destruct IH as (Hh & Hc & Hcnt); [lia|lia|].
    destruct (increment_counts key _ _ Hh Hcnt) as (w' & E & Hh' & Hc' & Hcnt');
      [lia|lia|].
    rewrite E. cbn [snd]. split_and!; [done|congruence|].
    by replace (Z.of_nat (S (S n))) with (Z.of_nat (S n) + 1) by lia.
Qed.

End Statistics.

(** A counter counts.  Starting from a key that does not exist, after [n]
    calls of [increment] the counter reads [n], at any later time (a counter
    has no lifetime), and the next [increment] answers [n + 1]. *)
Theorem counter_counts `{PyRuntime} key (n : nat) delay w :
  RateLimitFacts.healthy w -> find (clock w) key (srv (redis w)) = None ->
  Z.of_nat n + 1 < 2 ^ 63 -> 0 <= delay ->
  (get_counter key (sleep delay (increments key n w))).1 = Ret (Z.of_nat n)
  /\ (increment key (sleep delay (increments key n w))).1 = Ret (Z.of_nat n + 1).
Proof.
  intros Hw Hk Hn Hd. destruct n as [|n].
  - change (increments key 0 w) with w.
    assert (Hk' : find (clock (sleep delay w)) key (srv (redis (sleep delay w)))
                  = None).
    { revert Hk. unfold find. cbn [sleep clock redis].
      destruct (keyspace (srv (redis w)) !! key) as [[v [dl|]]|]; try done.
      unfold live. simpl.
      destruct (Z.ltb_spec (clock w) dl); [done|].
      destruct (Z.ltb_spec (clock w + delay) dl); [lia|done]. }
    rewrite get_counter_absent by done.
    destruct (increment_absent key (sleep delay w) ltac:(done) Hk')
      as (w' & E & _). by rewrite E.
  - destruct (increments_counts key w Hw Hk (S n)) as (Hh & Hc & Hcnt); [lia|lia|].
    rewrite (get_counter_counts key (Z.of_nat (S n))) by done.
    destruct (increment_counts key (Z.of_nat (S n)) (sleep delay (increments key (S n) w)))
      as (w' & E & _); [done|done|lia|lia|].
    by rewrite E.
Qed.

Lemma counter_counts_witness :
  (get_counter "requests"
     (sleep 86400 (increments "requests" 3 (Reference.fresh_world 1000 [])))).1
    = Ret (Z.of_nat 3)
  /\ (increment "requests"
        (sleep 86400 (increments "requests" 3 (Reference.fresh_world 1000 [])))).1
     = Ret (Z.of_nat 3 + 1).
Proof.
  apply (counter_counts "requests" 3 86400).
  - split; vm_compute; reflexivity.
  - vm_compute. reflexivity.
  - vm_compute. reflexivity.
  - lia.
Defined.

(** A gauge reads what was set, at any later time, whatever was stored under
    the key before. *)
Theorem gauge_round_trip `{PyRuntime} key v delay w :
  RateLimitFacts.healthy w ->
  (set_gauge key v w).1 = Ret true
  /\ (get_gauge key (sleep delay (set_gauge key v w).2)).1 = Ret (Some v).
Proof.
  intros Hw.
  assert (E : set_gauge key v w =
              (Ret true,
               set_redis {| connected := true; faults := [];
                            srv := Store.store key
                                     {| value := RStr (str_of_int v); deadline := None |}
                                     (srv (redis w)) |} w)).
  { unfold set_gauge. apply try_ret_eq.
    erewrite bind_eq; [reflexivity|]. by rewrite client_call_ok by apply Hw. }
  rewrite E. cbn [fst snd]. split; [done|].
  unfold get_gauge. erewrite try_ret_eq; [reflexivity|].
  erewrite bind_eq; last first.
  { rewrite client_call_ok by done. unfold GET, find. simpl.
    rewrite lookup_insert_eq. reflexivity. }
  cbv beta iota. rewrite nonempty_str_of_int.
  rewrite PyFacts.int_of_str_of_int. reflexivity.
Qed.

Lemma gauge_round_trip_witness :
  (set_gauge "load" (-5) (Reference.fresh_world 1000 [])).1 = Ret true
  /\ (get_gauge "load"
        (sleep 7 (set_gauge "load" (-5) (Reference.fresh_world 1000 [])).2)).1
     = Ret (Some (-5)).
Proof. apply (gauge_round_trip "load" (-5) 7). split; vm_compute; reflexivity. Defined.

(** The lifetime of a key.  [set_ttl] on a key that exists, with a lifetime
    [ttl] the server accepts, gives it [ttl] seconds from now: until they are
    over [get_ttl] counts them down, and once more than [ttl] seconds have
    passed it answers -2; [persist] in between makes the answer -1 for good. *)
Theorem ttl_countdown `{PyRuntime} key ttl w e :
  RateLimitFacts.healthy w -> find (clock w) key (srv (redis w)) = Some e ->
  0 < ttl -> expire_time_ok (clock w) ttl = true ->
  (set_ttl key ttl w).1 = Ret true
  /\ forall delay, 0 <= delay ->
       (delay < ttl ->
        (get_ttl key (sleep delay (set_ttl key ttl w).2)).1 = Ret (ttl - delay)
        /\ forall later, 0 <= later ->
             (get_ttl key
                (sleep later
                   (persist key (sleep delay (set_ttl key ttl w).2)).2)).1
             = Ret (-1))
       /\ (ttl < delay ->
           (get_ttl key (sleep delay (set_ttl key ttl w).2)).1 = Ret (-2)).
Proof.
  intros Hw Hk Httl Hok.
  set (s1 := Store.store key {| value := value e; deadline := Some (clock w + ttl) |}
               (srv (redis w))).
  set (w1 := set_redis {| connected := true; faults := []; srv := s1 |} w).
  assert (E : set_ttl key ttl w = (Ret true, w1)).
  { unfold set_ttl. apply try_ret_eq.
    rewrite client_call_ok by apply Hw. unfold EXPIRE. rewrite Hok, Hk.
    cbn [negb]. destruct (Z.leb_spec ttl 0); [lia|done]. }
  rewrite E. cbn [fst snd]. split; [done|]. intros delay Hd.
  assert (Hfind : forall d,
            find (clock w + d) key s1 =
              if d <? ttl
              then Some {| value := value e; deadline := Some (clock w + ttl) |}
              else None).
  { intros d. unfold find, s1. simpl. rewrite lookup_insert_eq.
    unfold live. simpl.
    destruct (Z.ltb_spec d ttl); destruct (Z.ltb_spec (clock w + d) (clock w + ttl));
      try lia; done. }
  assert (Hget : (get_ttl key (sleep delay w1)).1 =
                 Ret (if delay <? ttl then ttl - delay else -2)).
  { unfold get_ttl. erewrite try_ret_eq; [reflexivity|].
    rewrite client_call_ok by done. unfold TTL.
    change (clock (sleep delay w1)) with (clock w + delay).
    change (srv (redis (sleep delay w1))) with s1.
    rewrite Hfind. destruct (delay <? ttl); cbn [fst]; [|done].
    do 2 f_equal. lia. }
  split.
  - intros Hlt. split.
    { rewrite Hget. destruct (Z.ltb_spec delay ttl); [done|lia]. }
    intros later Hlater.
    set (s2 := Store.store key {| value := value e; deadline := None |} s1).
    set (w2 := set_redis {| connected := true; faults := []; srv := s2 |}
                 (sleep delay w1)).
    assert (E2 : persist key (sleep delay w1) = (Ret true, w2)).
    { unfold persist. apply try_ret_eq.
      rewrite client_call_ok by done. unfold PERSIST.
      change (clock (sleep delay w1)) with (clock w + delay).
      change (srv (redis (sleep delay w1))) with s1.
      rewrite Hfind.
      destruct (Z.ltb_spec delay ttl); [done|lia]. }
    rewrite E2. cbn [snd].
    unfold get_ttl. erewrite try_ret_eq; [reflexivity|].
    rewrite client_call_ok by done. unfold TTL, find. simpl.
    rewrite lookup_insert_eq. reflexivity.
  - intros Hgt. rewrite Hget. destruct (Z.ltb_spec delay ttl); [lia|done].
Qed.

Lemma ttl_countdown_witness :
  let w := (set_gauge "load" 5 (Reference.fresh_world 1000 [])).2 in
  (set_ttl "load" 60 w).1 = Ret true
  /\ (get_ttl "load" (sleep 20 (set_ttl "load" 60 w).2)).1 = Ret (60 - 20)
  /\ (get_ttl "load"
        (sleep 100 (persist "load" (sleep 20 (set_ttl "load" 60 w).2)).2)).1
     = Ret (-1)
  /\ (get_ttl "load" (sleep 61 (set_ttl "load" 60 w).2)).1 = Ret (-2).
Proof.
  intros w.
  destruct (ttl_countdown "load" 60 w {| value := RStr "5"; deadline := None |})
    as [Hset Hget].
  - split; vm_compute; reflexivity.
  - vm_compute. reflexivity.
  - lia.
  - vm_compute. reflexivity.
  - destruct (Hget 20 ltac:(lia)) as [Hin _].
    destruct (Hin ltac:(lia)) as [Hcount Hpersist].
    destruct (Hget 61 ltac:(lia)) as [_ Hout].
    split_and!; [exact Hset|exact Hcount|apply Hpersist; lia|apply Hout; lia].
Defined.

End Statistics.

(** ** The rows a write leaves in the time-series tables *)

Module StoreWrites.
Import Routes CassandraTelemetryService LatestFacts.

Section StoreWrites.
Context `{PyRuntime}.












End StoreWrites.



End StoreWrites.

(** ** The history of a device: query and deletion *)

Module History.
Import Routes CassandraTelemetryService LatestFacts StoreWrites.

Section History.
Context `{PyRuntime}.
Variable fmt : Z -> string.
















(** The number of measurements of an answer. *)
Definition measurements_in (groups : list (string * gmap string float)) : nat :=
  sum_list ((fun g => size g.2) <$> groups).

Lemma measurements_in_cons g groups :
  measurements_in (g :: groups) = (size g.2 + measurements_in groups)%nat.
Proof. done. Qed.

Lemma group_add_size ts name x groups :
  (measurements_in (group_add ts name x groups) <= S (measurements_in groups))%nat.
Proof.
  induction groups as [|[t ms] rest IH]; cbn [group_add].
  - rewrite measurements_in_cons. cbn [snd]. rewrite map_size_singleton.
    change (measurements_in []) with 0%nat. lia.
  - destruct (String.eqb t ts); rewrite !measurements_in_cons; cbn [snd]; [|lia].
    destruct (ms !! name) eqn:E.
    + rewrite map_size_insert_Some by eauto. lia.
    + rewrite map_size_insert_None by done. lia.
Qed.

Lemma group_rows_size rows :
  (measurements_in (group_rows fmt rows) <= length rows)%nat.
Proof.
  unfold group_rows.
  assert (forall acc,
            (measurements_in
               (foldl (fun acc row =>
                         group_add (fmt (row_timestamp row))
                           (row_measurement_name row) (row_numeric_value row) acc)
                      acc rows)
             <= measurements_in acc + length rows)%nat) as Hacc.
  { induction rows as [|r rows IH]; intros acc; simpl; [lia|].
    specialize (IH (group_add (fmt (row_timestamp r))
                      (row_measurement_name r) (row_numeric_value r) acc)).
    pose proof (group_add_size (fmt (row_timestamp r))
                  (row_measurement_name r) (row_numeric_value r) acc).
    lia. }
  apply (Hacc []).
Qed.



End History.

(** LIMIT counts measurements, not instants.  Whatever the state of the
    store, an answer of [get_device_telemetry] holds at most [limit]
    measurements over all its timestamps together, and none when [limit] is
    not positive. *)
Theorem limit_bounds_measurements `{PyRuntime} fmt d s e limit w groups :
  (get_device_telemetry fmt d s e limit w).1 = Ret groups ->
  Z.of_nat (measurements_in groups) <= Z.max 0 limit.
Proof.
  unfold get_device_telemetry, try_except.
  destruct (bind _ _ w) as [[r|ex] w1] eqn:E; simpl; last first.
  { intros [= <-]. unfold measurements_in. simpl. lia. }
  intros [= <-]. revert E. unfold bind at 1.
  destruct (_parse_time_range s w) as [[a|?] wa]; [|done].
  unfold bind at 1.
  destruct (end_of_range e wa) as [[b|?] wb]; [|done].
  unfold bind at 1. unfold select_device_data.
  destruct (Z.leb_spec limit 0).
  { unfold bind, raise. by destruct (session_execute _ wb) as [[?|?] ?]. }
  unfold session_execute.
  destruct (session (cass wb)); [|done].
  destruct (cass_faults (cass wb)) as [|[] fs]; try done.
  - intros [= <- _].
    pose proof (group_rows_size fmt
      (take (Z.to_nat limit)
         (merge_sort clustering
            (row_of <$>
               filter (fun kv : (Z * Z * string) * (float * gmap string string) =>
                         in_range d a b kv.1 = true)
                      (map_to_list (device_data (cass wb))))))) as Hs.
    rewrite length_take in Hs. lia.
  - intros [= <- _].
    pose proof (group_rows_size fmt
      (take (Z.to_nat limit)
         (merge_sort clustering
            (row_of <$>
               filter (fun kv : (Z * Z * string) * (float * gmap string string) =>
                         in_range d a b kv.1 = true)
                      (map_to_list (device_data (cass wb))))))) as Hs.
    rewrite length_take in Hs. lia.
Qed.

Lemma limit_bounds_measurements_witness :
  Z.of_nat (measurements_in [(isoformat 1000, {[ "humidity" := 65 ]})]) <= Z.max 0 1.
Proof.
  apply (limit_bounds_measurements isoformat 7 "-1h" None 1
           (write_telemetry (Some 7)
              (PDict (<["temperature" := PInt 23]> (<["humidity" := PInt 65]> ∅)))
              (Some 1000) None (Reference.fresh_world 1000 [])).2).
  vm_compute. reflexivity.
Defined.



End History.

(** ** The history of a device: what a write adds *)

Module HistoryWrites.
Import Routes CassandraTelemetryService LatestFacts StoreWrites History.

Section HistoryWrites.
Context `{PyRuntime}.
Variable fmt : Z -> string.










End HistoryWrites.



End HistoryWrites.

(** ** Submission: the secondary updates follow the write *)

Module SecondaryUpdates.
Import Routes RedisCacheService CassandraTelemetryService.
Import PresenceFacts PresenceMore LatestFacts SnapshotCache PresenceDerived.
Import SubmitFacts.

Section SecondaryUpdates.
Context `{PyRuntime}.

















End SecondaryUpdates.



End SecondaryUpdates.
